(** * Bedrock training pipeline: the data job and its orchestrator

    A shallow embedding of the TypeScript sources

    - [lib/bedrock-training-pipeline-stack.ts] (the Step Functions state
      machine built by [createStateMachine]),
    - [app/src/data-service.ts]   ([DataService.getQueryResults]),
    - [app/src/data-cleaner.ts]   ([DataCleaner]),
    - [app/src/distillation-service.ts] ([DistillationService]),
    - [app/src/storage-service.ts] ([StorageService.saveTrainingDataset]),
    - [app/src/bedrock-service.ts] ([BedrockService.createModelCustomizationJob]),
    - [app/src/index.ts]          ([main]),

    followed by the properties of the specification that were checked
    against them. *)

From Stdlib Require Import ZArith NArith QArith Lia.
From Stdlib Require Import Ascii String Decimal DecimalString DecimalZ.
From stdpp Require Import base option list gmap sets.
From Equations Require Import Equations.

Set Warnings "-register-all".

Local Close Scope Q_scope.
Local Open Scope nat_scope.
Local Open Scope list_scope.

(* ===================================================================== *)
(** * Part I: definitions *)
(* ===================================================================== *)

(** ** The JavaScript values the code manipulates *)

Module JS.

(** A JavaScript string is a sequence of UTF-16 code units; [length],
    [substring] and the regular expressions of the sources all work on
    code units. *)
Abbreviation jsstring := (list N).

(** A string literal of the sources (all of them are ASCII). *)
Fixpoint js (s : string) : jsstring :=
  match s with
  | EmptyString => []
  | String a s' => N_of_ascii a :: js s'
  end.

(** Truthiness of a string: every string but the empty one. *)
Definition truthy (s : jsstring) : bool :=
  match s with
  | [] => false
  | _ :: _ => true
  end.

(** [x || d] where [x : string | undefined]. *)
Definition or_else (x : option jsstring) (d : jsstring) : jsstring :=
  match x with
  | Some s => if truthy s then s else d
  | None => d
  end.

(** Truthiness of [x : string | undefined]. *)
Definition truthy_opt (x : option jsstring) : bool :=
  match x with
  | Some s => truthy s
  | None => false
  end.

(** [s.substring(0, n)]. *)
Definition substring0 (n : nat) (s : jsstring) : jsstring := take n s.

(** ECMAScript WhiteSpace and LineTerminator code points, the ones
    [String.prototype.trim] strips. *)
Definition isWhiteSpace (c : N) : bool :=
  ((9 <=? c) && (c <=? 13) || (c =? 32) || (c =? 160) || (c =? 5760)
   || (8192 <=? c) && (c <=? 8202) || (c =? 8232) || (c =? 8233)
   || (c =? 8239) || (c =? 8287) || (c =? 12288) || (c =? 65279))%N.

Fixpoint trimStart (s : jsstring) : jsstring :=
  match s with
  | [] => []
  | c :: s' => if isWhiteSpace c then trimStart s' else s
  end.

Definition trimEnd (s : jsstring) : jsstring := rev (trimStart (rev s)).

(** [s.trim()]. *)
Definition trim (s : jsstring) : jsstring := trimEnd (trimStart s).

(** [(s.match(re) || []).length] for a global regular expression that
    matches single code units: the number of code units satisfying [p]. *)
Definition countMatches (p : N -> bool) (s : jsstring) : nat :=
  length (filter (fun c => p c = true) s).

(** [xs.join(sep)]. *)
Fixpoint join (sep : jsstring) (xs : list jsstring) : jsstring :=
  match xs with
  | [] => []
  | [x] => x
  | x :: rest => x ++ sep ++ join sep rest
  end.

(** The number of lines of a newline-delimited text. *)
Definition lineCount (s : jsstring) : nat :=
  S (countMatches (N.eqb 10) s).

(** [n.toString()] for an integral number (plain decimal digits, as
    [Number::toString] gives below 10^21). *)
Definition Z_toString (z : Z) : jsstring := js (NilZero.string_of_int (Z.to_int z)).

(** The result of [parseInt]: an integer or [NaN]. *)
Inductive intOrNaN : Type :=
  | NaN : intOrNaN
  | Int : Z -> intOrNaN.

Definition intOrNaN_toString (n : intOrNaN) : jsstring :=
  match n with
  | NaN => js "NaN"
  | Int z => Z_toString z
  end.

(** [len < n] for an array length and a parsed number; every comparison
    with [NaN] is false. *)
Definition length_lt (len : nat) (n : intOrNaN) : bool :=
  match n with
  | NaN => false
  | Int z => (Z.of_nat len <? z)%Z
  end.

(** The code units of the decimal digits. *)
Definition isDigit (c : N) : Prop := (48 <= c <= 57)%N.

End JS.

Import JS.

(** ** The orchestrator: [createStateMachine] *)

Module Orchestrator.

(** The states that [createStateMachine] constructs, by construct id. *)
Inductive StateName : Type :=
  | RunTrainingTask
  | CheckTaskSuccess
  | TaskSucceeded
  | WaitForTraining
  | CheckTrainingStatus
  | HandleTrainingCompletion
  | TrainingSucceeded
  | NotifyFailure
  | TrainingFailed
  | NotifyEcsFailure
  | TaskFailed.

#[global] Instance StateName_eq_dec : EqDecision StateName.
Proof. solve_decision. Defined.

(** The two JSON paths the choice states read. *)
Inductive Path : Type :=
  | taskExecution_Succeeded
  | trainingStatus_status.

(** The execution data, restricted to what the choices read:
    [$.taskExecution.Succeeded] written by [RunTrainingTask]
    ([resultPath: "$.taskExecution"]) and [$.trainingStatus.status] written
    by [CheckTrainingStatus] ([resultPath: "$.trainingStatus"]). *)
Record ExecutionData : Type := {
  taskSucceeded : bool;
  trainingStatus : jsstring;
  pollsDone : nat
}.

Inductive Condition : Type :=
  | stringEquals (p : Path) (v : jsstring)
  | booleanEquals (p : Path) (v : bool).

(** The kinds of Step Functions states used by the stack. *)
Inductive StateDef : Type :=
  | Task (next : StateName)
  | Wait (minutes : nat) (next : StateName)
  | Pass (next : StateName)
  | Choice (whens : list (Condition * StateName)) (otherwise : StateName)
  | Succeed
  | Fail.

(** The graph wired by [createStateMachine]:
    [runTrainingTask.next(checkTaskSuccess)], the two [Choice] states with
    their [when] rules in source order, and the two notification chains. *)
Definition definition (s : StateName) : StateDef :=
  match s with
  | RunTrainingTask => Task CheckTaskSuccess
  | CheckTaskSuccess =>
      Choice [(booleanEquals taskExecution_Succeeded true, TaskSucceeded)]
             NotifyEcsFailure
  | TaskSucceeded => Pass WaitForTraining
  | WaitForTraining => Wait 5 CheckTrainingStatus
  | CheckTrainingStatus => Task HandleTrainingCompletion
  | HandleTrainingCompletion =>
      Choice [(stringEquals trainingStatus_status (js "COMPLETED"), TrainingSucceeded);
              (stringEquals trainingStatus_status (js "FAILED"), NotifyFailure)]
             WaitForTraining
  | TrainingSucceeded => Succeed
  | NotifyFailure => Task TrainingFailed
  | TrainingFailed => Fail
  | NotifyEcsFailure => Task TaskFailed
  | TaskFailed => Fail
  end.

Definition startAt : StateName := RunTrainingTask.

(** What the two service integrations answer: whether the ECS task
    succeeded, and the status returned by the n-th
    [getModelCustomizationJob] call. *)
Record World : Type := {
  ecsTaskSucceeded : bool;
  getModelCustomizationJob : nat -> jsstring
}.

Definition evalCondition (c : Condition) (d : ExecutionData) : bool :=
  match c with
  | stringEquals trainingStatus_status v => bool_decide (trainingStatus d = v)
  | booleanEquals taskExecution_Succeeded v => bool_decide (taskSucceeded d = v)
  | stringEquals taskExecution_Succeeded _ => false
  | booleanEquals trainingStatus_status _ => false
  end.

(** A [Choice] state takes the first rule that matches, in the order the
    [when] calls were made, and [otherwise] when none does. *)
Fixpoint choose (whens : list (Condition * StateName)) (otherwise : StateName)
    (d : ExecutionData) : StateName :=
  match whens with
  | [] => otherwise
  | (c, target) :: rest =>
      if evalCondition c d then target else choose rest otherwise d
  end.

(** The effect of a task state on the execution data. *)
Definition runTask (w : World) (s : StateName) (d : ExecutionData) : ExecutionData :=
  match s with
  | RunTrainingTask =>
      {| taskSucceeded := ecsTaskSucceeded w;
         trainingStatus := trainingStatus d;
         pollsDone := pollsDone d |}
  | CheckTrainingStatus =>
      {| taskSucceeded := taskSucceeded d;
         trainingStatus := getModelCustomizationJob w (pollsDone d);
         pollsDone := S (pollsDone d) |}
  | _ => d
  end.

(** One transition of the machine; [None] in a terminal state. *)
Definition step (w : World) (c : StateName * ExecutionData)
    : option (StateName * ExecutionData) :=
  let (s, d) := c in
  match definition s with
  | Task next => Some (next, runTask w s d)
  | Wait _ next => Some (next, d)
  | Pass next => Some (next, d)
  | Choice whens otherwise => Some (choose whens otherwise d, d)
  | Succeed => None
  | Fail => None
  end.

(** The configuration after at most [n] transitions. *)
Fixpoint run (w : World) (n : nat) (c : StateName * ExecutionData)
    : StateName * ExecutionData :=
  match n with
  | 0 => c
  | S n' =>
      match step w c with
      | Some c' => run w n' c'
      | None => c
      end
  end.


(** The state entered after a poll that returned [status]: the transition
    out of [HandleTrainingCompletion]. *)
Definition afterPoll (status : jsstring) : StateName :=
  match definition HandleTrainingCompletion with
  | Choice whens otherwise =>
      choose whens otherwise
        {| taskSucceeded := true; trainingStatus := status; pollsDone := 0 |}
  | _ => HandleTrainingCompletion
  end.


(** What holds of every configuration reached from [startAt]: which
    answers of the two services a state being entered presupposes. *)
Definition justified (w : World) (c : StateName * ExecutionData) : Prop :=
  match c.1 with
  | RunTrainingTask => True
  | CheckTaskSuccess => taskSucceeded c.2 = ecsTaskSucceeded w
  | TaskSucceeded | WaitForTraining | CheckTrainingStatus =>
      ecsTaskSucceeded w = true
  | HandleTrainingCompletion =>
      ecsTaskSucceeded w = true
      /\ exists k, k < pollsDone c.2 /\ trainingStatus c.2 = getModelCustomizationJob w k
  | TrainingSucceeded =>
      ecsTaskSucceeded w = true
      /\ exists k, k < pollsDone c.2 /\ getModelCustomizationJob w k = js "COMPLETED"
  | NotifyFailure | TrainingFailed =>
      ecsTaskSucceeded w = true
      /\ exists k, k < pollsDone c.2 /\ getModelCustomizationJob w k = js "FAILED"
  | NotifyEcsFailure | TaskFailed => ecsTaskSucceeded w = false
  end.

End Orchestrator.

(** ** Shared data of the data job: [app/src/types.ts] and JSON values *)

(** A call that can throw: the value, or the message of the error. *)
Inductive Result (A : Type) : Type :=
  | Ok (a : A)
  | Err (message : jsstring).
Arguments Ok {A} a.
Arguments Err {A} message.

Section DataModel.

(** IEEE doubles are kept abstract: the pipeline only carries the numbers
    found in metadata from [JSON.parse] to [JSON.stringify]. *)
Context {double : Type}.

(** The values [JSON.parse] returns. An object is a finite map from
    property names to values; the enumeration order of its properties is
    not represented. *)
Inductive JSON : Type :=
  | JNull
  | JBool (b : bool)
  | JNumber (d : double)
  | JString (s : jsstring)
  | JArray (items : list JSON)
  | JObject (props : gmap jsstring JSON).

Fixpoint JSON_size (v : JSON) : nat :=
  match v with
  | JArray items => S (foldr (fun x n => JSON_size x + n) 0 items)
  | JObject props => S (map_fold (fun _ x n => JSON_size x + n) 0 props)
  | _ => 1
  end.

(** The own enumerable properties that an object spread [{...v}] copies:
    the properties of an object, the indexed elements of an array, the
    indexed code units of a string, and nothing for the other values. *)
Definition indexed (items : list JSON) : gmap jsstring JSON :=
  list_to_map (imap (fun i x => (Z_toString (Z.of_nat i), x)) items).

Definition ownProps (v : JSON) : gmap jsstring JSON :=
  match v with
  | JObject props => props
  | JArray items => indexed items
  | JString s => indexed (map (fun c => JString [c]) s)
  | JNull | JBool _ | JNumber _ => ∅
  end.

(** [{ ...target, ...source }] where [source] may be [undefined]: the
    properties of [source] are defined last and override. *)
Definition spread (source : option JSON) (target : gmap jsstring JSON)
    : gmap jsstring JSON :=
  match source with
  | Some v => ownProps v ∪ target
  | None => target
  end.

(** *** [JSON.stringify] *)

Definition hexDigit (n : N) : N :=
  (if n <? 10 then 48 + n else 87 + n)%N.

(** [\uXXXX] with lower-case hexadecimal digits. *)
Definition unicodeEscape (c : N) : jsstring :=
  js "\u" ++ [hexDigit ((c / 4096) mod 16); hexDigit ((c / 256) mod 16);
              hexDigit ((c / 16) mod 16); hexDigit (c mod 16)]%N.

Definition isHighSurrogate (c : N) : bool := ((55296 <=? c) && (c <=? 56319))%N.
Definition isLowSurrogate (c : N) : bool := ((56320 <=? c) && (c <=? 57343))%N.

(** The escape of one code unit that is not part of a surrogate pair. *)
Definition quoteUnit (c : N) : jsstring :=
  (if c =? 8 then js "\b"
   else if c =? 9 then js "\t"
   else if c =? 10 then js "\n"
   else if c =? 12 then js "\f"
   else if c =? 13 then js "\r"
   else if c =? 34 then [92; 34]
   else if c =? 92 then [92; 92]
   else if c <? 32 then unicodeEscape c
   else if isHighSurrogate c || isLowSurrogate c then unicodeEscape c
   else [c])%N.

Fixpoint quoteUnits (s : jsstring) : jsstring :=
  match s with
  | [] => []
  | c :: rest =>
      match rest with
      | d :: rest' =>
          if isHighSurrogate c && isLowSurrogate d
          then c :: d :: quoteUnits rest'
          else quoteUnit c ++ quoteUnits rest
      | [] => quoteUnit c
      end
  end.

(** QuoteJSONString. *)
Definition quoteJSONString (s : jsstring) : jsstring :=
  [34%N] ++ quoteUnits s ++ [34%N].

Section Stringify.

(** The serialization of a number: [Number::toString] for a finite double
    and [null] otherwise. *)
Variable serializeNumber : double -> jsstring.

Definition serializeProperty (kv : jsstring * jsstring) : jsstring :=
  quoteJSONString kv.1 ++ js ":" ++ kv.2.

(** [JSON.stringify(v)] without indentation. *)
Fixpoint JSON_stringify (v : JSON) : jsstring :=
  match v with
  | JNull => js "null"
  | JBool true => js "true"
  | JBool false => js "false"
  | JNumber d => serializeNumber d
  | JString s => quoteJSONString s
  | JArray items => js "[" ++ join (js ",") (map JSON_stringify items) ++ js "]"
  | JObject props =>
      js "{" ++
      join (js ",") (map serializeProperty (map_to_list (JSON_stringify <$> props)))
      ++ js "}"
  end.

End Stringify.

(** *** [types.ts] *)

Record TrainingExample : Type := {
  articleId : jsstring;
  title : jsstring;
  content : jsstring;
  publication : jsstring;
  publishedDate : jsstring;
  (* [metadata?: Record<string, any>]: whatever [JSON.parse] produced *)
  metadata : option JSON
}.

(** [interface PromptExample]; its [metadata] field is named [pmetadata]
    here, and holds the object that the literal builds. *)
Record PromptExample : Type := {
  prompt : jsstring;
  completion : jsstring;
  pmetadata : option (gmap jsstring JSON)
}.

Record TrainingConfig : Type := {
  lookBackDays : intOrNaN;
  publicationId : option jsstring;
  trainingRunId : jsstring;
  minPromptCount : intOrNaN;
  trainingDataBucket : jsstring;
  athenaDatabase : jsstring;
  athenaTable : jsstring;
  athenaWorkgroup : jsstring;
  athenaOutputLocation : jsstring
}.

Record ProcessingResult : Type := {
  promptCount : nat;
  s3Location : jsstring;
  datasetVersion : jsstring;
  processingTime : Z
}.

(** The object that [JSON.stringify(prompt)] serializes; an [undefined]
    property is left out. *)
Definition PromptExample_toJSON (p : PromptExample) : JSON :=
  let base : gmap jsstring JSON :=
    <[js "completion" := JString (completion p)]>
      (<[js "prompt" := JString (prompt p)]> ∅) in
  JObject match pmetadata p with
          | Some md => <[js "metadata" := JObject md]> base
          | None => base
          end.

End DataModel.

Arguments JSON : clear implicits.
Arguments TrainingExample : clear implicits.
Arguments PromptExample : clear implicits.

(** ** The record retriever: [DataService.getQueryResults] *)

Module DataService.
Section Retriever.
Context {double : Type}.

(** [JSON.parse]: the parsed value, or the message of the [SyntaxError]. *)
Variable JSON_parse : jsstring -> Result (JSON double).

(** [Datum]: [{ VarCharValue?: string }]. *)
Record Datum : Type := { VarCharValue : option jsstring }.

(** [Row]: [{ Data?: Datum[] }]. *)
Record Row : Type := { Data : option (list Datum) }.

(** The part of [GetQueryResultsCommandOutput] that is read:
    [ResultSet?.Rows] and [NextToken]. *)
Record GetQueryResultsOutput : Type := {
  Rows : option (list Row);
  NextToken : option jsstring
}.

(** [athenaClient.send(new GetQueryResultsCommand({ NextToken }))]: what the
    backend answers to a request carrying the given token. *)
Definition AthenaClient : Type := option jsstring -> Result GetQueryResultsOutput.

Definition extractValue (data : Datum) : jsstring :=
  or_else (VarCharValue data) [].

(** The body of the row loop for one row: [None] when the row has fewer
    than five columns and is passed over. *)
Definition decodeRow (row : Row) : Result (option (TrainingExample double)) :=
  let data := default [] (Data row) in
  if 5 <=? length data then
    let column i := extractValue (default {| VarCharValue := None |} (data !! i)) in
    let parsed :=
      match data !! 5 with
      | Some d => JSON_parse (or_else (Some (extractValue d)) (js "{}"))
      | None => Ok (JObject ∅)
      end in
    match parsed with
    | Ok md =>
        Ok (Some {| articleId := column 0;
                    title := column 1;
                    content := column 2;
                    publication := column 3;
                    publishedDate := column 4;
                    metadata := Some md |})
    | Err e => Err e
    end
  else Ok None.

(** [for (let i = 1; i < rows.length; i++)], started at the rows that
    remain; an exception of [JSON.parse] leaves the loop and the function. *)
Fixpoint decodeRows (rows : list Row) (results : list (TrainingExample double))
    : Result (list (TrainingExample double)) :=
  match rows with
  | [] => Ok results
  | row :: rest =>
      match decodeRow row with
      | Ok (Some example) => decodeRows rest (results ++ [example])
      | Ok None => decodeRows rest results
      | Err e => Err e
      end
  end.

(** The [do ... while (nextToken)] loop; [fuel] bounds the number of pages
    requested and [None] means that the bound was reached with a
    next-page token still pending. *)
Fixpoint getQueryResults_loop (client : AthenaClient) (fuel : nat)
    (nextToken : option jsstring) (results : list (TrainingExample double))
    : option (Result (list (TrainingExample double))) :=
  match fuel with
  | 0 => None
  | S fuel' =>
      match client nextToken with
      | Err e => Some (Err e)
      | Ok response =>
          let rows := default [] (Rows response) in
          (* Skip header row *)
          match decodeRows (drop 1 rows) results with
          | Err e => Some (Err e)
          | Ok results' =>
              if truthy_opt (NextToken response)
              then getQueryResults_loop client fuel' (NextToken response) results'
              else Some (Ok results')
          end
      end
  end.

Definition getQueryResults (client : AthenaClient) (fuel : nat)
    : option (Result (list (TrainingExample double))) :=
  getQueryResults_loop client fuel None [].

(** The records of one page, as the loop body decodes them. *)
Definition pageRecords (page : GetQueryResultsOutput)
    : Result (list (TrainingExample double)) :=
  decodeRows (drop 1 (default [] (Rows page))) [].

(** [serves client token pages]: asked with [token], the backend answers
    with the first of [pages], every page but the last carries a next-page
    token, and asked with that token the backend answers with the rest. *)
Fixpoint serves (client : AthenaClient) (token : option jsstring)
    (pages : list GetQueryResultsOutput) : Prop :=
  match pages with
  | [] => False
  | page :: rest =>
      client token = Ok page /\
      match rest with
      | [] => truthy_opt (NextToken page) = false
      | _ :: _ => truthy_opt (NextToken page) = true
                  /\ serves client (NextToken page) rest
      end
  end.

(** [servesThenFails client token pages e]: the backend serves [pages],
    each with a next-page token, and fails with [e] on the request that
    follows. *)
Fixpoint servesThenFails (client : AthenaClient) (token : option jsstring)
    (pages : list GetQueryResultsOutput) (e : jsstring) : Prop :=
  match pages with
  | [] => client token = Err e
  | page :: rest =>
      client token = Ok page
      /\ truthy_opt (NextToken page) = true
      /\ servesThenFails client (NextToken page) rest e
  end.

(** *** [queryTrainingData] and [waitForQueryCompletion] *)

(** [StartQueryExecutionCommand] as built by [queryTrainingData]. *)
Record StartQueryExecutionCommand : Type := {
  QueryString : jsstring;
  QueryExecutionContext_Database : jsstring;
  ResultConfiguration_OutputLocation : jsstring;
  WorkGroup : jsstring
}.

(** What is read of a [GetQueryExecutionCommandOutput]:
    [QueryExecution?.Status?.State] and
    [QueryExecution?.Status?.StateChangeReason]. *)
Record QueryExecutionStatus : Type := {
  State : option jsstring;
  StateChangeReason : option jsstring
}.

(** The Athena service and the clock, as the query sees them: the answer
    to the start command, the answer to the n-th [GetQueryExecution], the
    pages of results, the n-th reading of [Date.now()], and the text of
    [lookBackDate.toISOString().split("T")[0]] for a look-back in days (an
    error when the date is invalid). *)
Record Athena : Type := {
  startQueryExecution : StartQueryExecutionCommand -> Result (option jsstring);
  getQueryExecution : nat -> Result QueryExecutionStatus;
  results : AthenaClient;
  now : nat -> Z;
  lookBackDate : intOrNaN -> Result jsstring
}.

(** How many times the clock was read and the execution polled. *)
Record Session : Type := {
  reads : nat;
  polls : nat
}.

Definition queryString (config : TrainingConfig) (date : jsstring) : jsstring :=
  let query := js "
      SELECT 
        article_id as articleId,
        title,
        content,
        publication_id as publication,
        published_date as publishedDate,
        metadata
      FROM " ++ athenaDatabase config ++ js "." ++ athenaTable config ++ js "
      WHERE published_date >= DATE('" ++ date ++ js "')
        AND content IS NOT NULL
        AND title IS NOT NULL
        AND content != ''
        AND title != ''
    " in
  let query :=
    if truthy_opt (publicationId config)
    then query ++ js " AND publication_id = '" ++ or_else (publicationId config) []
         ++ js "'"
    else query in
  query ++ js " ORDER BY published_date DESC".

(** A status that keeps the waiting loop going: neither success nor one of
    the two failures. *)
Definition running (response : QueryExecutionStatus) : Prop :=
  State response <> Some (js "SUCCEEDED")
  /\ State response <> Some (js "FAILED")
  /\ State response <> Some (js "CANCELLED").

(** The [while (Date.now() - startTime < maxWaitTime)] loop; [fuel] bounds
    the number of turns and [None] means that the bound was reached with
    the loop still running. *)
Fixpoint waitForQueryCompletion_loop (athena : Athena) (fuel : nat)
    (startTime maxWaitTime : Z) (s : Session) : option (Session * Result unit) :=
  match fuel with
  | 0 => None
  | S fuel' =>
      let time := now athena (reads s) in
      if (time - startTime <? maxWaitTime)%Z then
        let s' := {| reads := S (reads s); polls := S (polls s) |} in
        match getQueryExecution athena (polls s) with
        | Err e => Some (s', Err e)
        | Ok response =>
            let state := State response in
            if bool_decide (state = Some (js "SUCCEEDED")) then Some (s', Ok tt)
            else if bool_decide (state = Some (js "FAILED"))
                    || bool_decide (state = Some (js "CANCELLED"))
            then
              let reason := or_else (StateChangeReason response) (js "Unknown error") in
              Some (s', Err (js "Query execution " ++ default (js "undefined") state
                             ++ js ": " ++ reason))
            else waitForQueryCompletion_loop athena fuel' startTime maxWaitTime s'
        end
      else Some ({| reads := S (reads s); polls := polls s |},
                 Err (js "Query execution timeout"))
  end.

Definition waitForQueryCompletion (athena : Athena) (fuel : nat)
    (maxWaitTime : Z) (s : Session) : option (Session * Result unit) :=
  let startTime := now athena (reads s) in
  waitForQueryCompletion_loop athena fuel startTime maxWaitTime
    {| reads := S (reads s); polls := polls s |}.

(** [queryTrainingData], with the default [maxWaitTime] of 300000 ms;
    [fuel] bounds the turns of the waiting loop and the pages requested. *)
Definition queryTrainingData (athena : Athena) (fuel : nat)
    (config : TrainingConfig) (s : Session)
    : option (Session * Result (list (TrainingExample double))) :=
  match lookBackDate athena (lookBackDays config) with
  | Err e => Some (s, Err e)
  | Ok date =>
      let startCommand :=
        {| QueryString := queryString config date;
           QueryExecutionContext_Database := athenaDatabase config;
           ResultConfiguration_OutputLocation := athenaOutputLocation config;
           WorkGroup := athenaWorkgroup config |} in
      match startQueryExecution athena startCommand with
      | Err e => Some (s, Err e)
      | Ok queryExecutionId =>
          if negb (truthy_opt queryExecutionId)
          then Some (s, Err (js "Failed to start Athena query execution"))
          else
            match waitForQueryCompletion athena fuel 300000 s with
            | None => None
            | Some (s', Err e) => Some (s', Err e)
            | Some (s', Ok _) =>
                match getQueryResults (results athena) fuel with
                | None => None
                | Some r => Some (s', r)
                end
            end
      end
  end.

End Retriever.
End DataService.

(** ** The cleaning pipeline: [DataCleaner] *)

Module DataCleaner.
Section Cleaner.
Context {double : Type}.

(** [convert] of the [html-to-text] package, with the options that
    [stripHtml] passes. *)
Variable convert : jsstring -> jsstring.

(** The instance state: [private seenArticleIds: Set<string>]. *)
Record DataCleaner : Type := { seenArticleIds : gset jsstring }.

(** [new DataCleaner()]. *)
Definition new : DataCleaner := {| seenArticleIds := ∅ |}.

Definition removeNulls (examples : list (TrainingExample double))
    : list (TrainingExample double) :=
  filter (fun example =>
            truthy (articleId example) && truthy (title example)
            && truthy (content example)
            && negb (bool_decide (trim (title example) = []))
            && negb (bool_decide (trim (content example) = []))
            && truthy (publication example)
            && truthy (publishedDate example) = true)
         examples.

Definition stripHtml (examples : list (TrainingExample double))
    : list (TrainingExample double) :=
  map (fun example =>
         {| articleId := articleId example;
            title := trim (convert (title example));
            content := trim (convert (content example));
            publication := publication example;
            publishedDate := publishedDate example;
            metadata := metadata example |})
      examples.

(** The [for ... of] loop of [filterDuplicates], over the examples that
    remain, with the set and the [unique] array built so far. *)
Fixpoint filterDuplicates_loop (examples : list (TrainingExample double))
    (seen : gset jsstring) (unique : list (TrainingExample double))
    : gset jsstring * list (TrainingExample double) :=
  match examples with
  | [] => (seen, unique)
  | example :: rest =>
      if bool_decide (articleId example ∈ seen)
      then filterDuplicates_loop rest seen unique
      else filterDuplicates_loop rest ({[articleId example]} ∪ seen)
                                 (unique ++ [example])
  end.

(** [filterDuplicates]: the instance after the call and the array returned. *)
Definition filterDuplicates (this : DataCleaner)
    (examples : list (TrainingExample double))
    : DataCleaner * list (TrainingExample double) :=
  (* this.seenArticleIds.clear() *)
  let cleared := ∅ in
  let (seen, unique) := filterDuplicates_loop examples cleared [] in
  ({| seenArticleIds := seen |}, unique).

Definition isQuote (c : N) : bool := (c =? 34)%N.
Definition isUpperAZ (c : N) : bool := ((65 <=? c) && (c <=? 90))%N.

Definition quoteCount (example : TrainingExample double) : nat :=
  countMatches isQuote (title example) + countMatches isQuote (content example).

(** The warning written by [console.warn]. *)
Definition unbalancedQuotesWarning (example : TrainingExample double) : jsstring :=
  js "Unbalanced quotes detected in example: " ++ substring0 50 (title example).

(** [count / length] as an exact quotient. The double division is
    correctly rounded and monotone, and for lengths below 2^50 the exact
    quotient is either at most 4/5 or above it by more than the rounding
    errors involved, so the double quotient exceeds the double [0.8]
    exactly when the exact quotient exceeds 4/5. A zero length gives [NaN]
    in the source and 0 here, and neither exceeds [0.8]. *)
Definition allCapsRatio (example : TrainingExample double) : Q :=
  (inject_Z (Z.of_nat (countMatches isUpperAZ (title example)))
   / inject_Z (Z.of_nat (length (title example))))%Q.

Definition Qgtb (a b : Q) : bool := negb (Qle_bool a b).

(** The predicate passed to [filter] in [validateEntitiesAndQuotes]: the
    warnings it logs and the boolean it returns. *)
Definition validateExample (example : TrainingExample double)
    : list jsstring * bool :=
  let warnings :=
    if negb (quoteCount example mod 2 =? 0)
    then [unbalancedQuotesWarning example]
    else [] in
  if (length (content example) <? 50) || (length (title example) <? 5)
  then (warnings, false)
  else if Qgtb (allCapsRatio example) (8 # 10)
          && (20 <? length (title example))
  then (warnings, false)
  else (warnings, true).

(** The acceptance criterion in the words of the specification: body of
    at least 50, title of at least 5, and not (mostly upper-case title
    longer than 20). *)
Definition acceptable (example : TrainingExample double) : Prop :=
  50 <= length (content example) /\ 5 <= length (title example)
  /\ ~ ((8 # 10 < allCapsRatio example)%Q /\ 20 < length (title example)).

Fixpoint validateEntitiesAndQuotes (examples : list (TrainingExample double))
    : list jsstring * list (TrainingExample double) :=
  match examples with
  | [] => ([], [])
  | example :: rest =>
      let (warnings, keep) := validateExample example in
      let (warnings', kept) := validateEntitiesAndQuotes rest in
      (warnings ++ warnings', if keep then example :: kept else kept)
  end.

(** [cleanExamples]: the four stages in their fixed order. *)
Definition cleanExamples (this : DataCleaner)
    (examples : list (TrainingExample double))
    : DataCleaner * list jsstring * list (TrainingExample double) :=
  let cleaned := removeNulls examples in
  let cleaned := stripHtml cleaned in
  let (this', cleaned) := filterDuplicates this cleaned in
  let (warnings, cleaned) := validateEntitiesAndQuotes cleaned in
  (this', warnings, cleaned).

(** The number that an array index is. *)
Variable numberOfIndex : nat -> double.

Definition createPrompt (example : TrainingExample double) : jsstring :=
  js "Generate a headline for the following article:

Article content:
" ++ substring0 500 (content example) ++ js "..." ++
  js "

Publication: " ++ publication example ++
  js "
Style requirements: Editorial quality, SEO-optimized, engaging".

Definition createCompletion (example : TrainingExample double) : jsstring :=
  title example.

(** [transformToPrompts]: [examples.map((example, index) => ...)]. *)
Definition transformToPrompts (examples : list (TrainingExample double))
    : list (PromptExample double) :=
  imap (fun index example =>
          let prompt := createPrompt example in
          let completion := createCompletion example in
          {| prompt := prompt;
             completion := completion;
             pmetadata :=
               Some (spread (metadata example)
                       (<[js "exampleIndex" := JNumber (numberOfIndex index)]>
                       (<[js "publishedDate" := JString (publishedDate example)]>
                       (<[js "publication" := JString (publication example)]>
                       (<[js "articleId" := JString (articleId example)]> ∅))))) |})
       examples.

End Cleaner.
End DataCleaner.

(** ** The distillation batcher: [DistillationService] *)

Module DistillationService.
Section Distillation.
Context {double : Type}.

Variable JSON_parse : jsstring -> Result (JSON double).

(** The two [TypeError]s that evaluating
    [responseBody.content?.[0]?.text?.trim()] can raise on a parsed body;
    their messages are the engine's. *)
Inductive RuntimeError : Type :=
  | ReadPropertyOfNull
  | NotAFunction.

Variable runtimeMessage : RuntimeError -> jsstring.

(** [interface DistillationConfig]; the request count is a natural number
    when given. *)
Record DistillationConfig : Type := {
  cfgTeacherModelId : jsstring;
  cfgRegion : jsstring;
  cfgMaxConcurrentRequests : option N
}.

Record DistillationService : Type := {
  teacherModelId : jsstring;
  maxConcurrentRequests : positive
}.

(** The constructor: [config.maxConcurrentRequests || 5]. *)
Definition new (config : DistillationConfig) : DistillationService :=
  {| teacherModelId := cfgTeacherModelId config;
     maxConcurrentRequests :=
       match cfgMaxConcurrentRequests config with
       | Some (Npos p) => p
       | Some N0 | None => 5%positive
       end |}.

(** The [InvokeModelCommand] built for one example. *)
Record InvokeModelCommand : Type := {
  modelId : jsstring;
  contentType : jsstring;
  accept : jsstring;
  anthropic_version : jsstring;
  max_tokens : nat;
  userContent : jsstring
}.

(** [bedrockClient.send(command)] followed by
    [new TextDecoder().decode(response.body)]: the text of the body, or the
    error of the call; the first argument counts the invocations made
    before this one on the client. *)
Definition BedrockRuntimeClient : Type :=
  nat -> InvokeModelCommand -> Result jsstring.

Definition createDistillationPrompt (example : TrainingExample double) : jsstring :=
  js "You are an expert headline writer for " ++ publication example ++
  js ". 
      Generate a high-quality, SEO-optimized headline for the following article content. The headline should be:
      - Editorial quality and engaging
      - SEO-optimized with relevant keywords
      - Appropriate for the publication's style
      - Between 8-15 words

      Article content:
      " ++ substring0 1000 (content example) ++
  (if 1000 <? length (content example) then js "..." else js "") ++
  js "

      Generate the headline:".

Definition createStudentPrompt (example : TrainingExample double) : jsstring :=
  js "Generate a headline for the following article:

Article content:
" ++ substring0 500 (content example) ++
  (if 500 <? length (content example) then js "..." else js "") ++
  js "

Publication: " ++ publication example ++
  js "
Style requirements: Editorial quality, SEO-optimized, engaging".

(** [undefined] and [null], where an optional chain stops. *)
Definition nullish (v : option (JSON double)) : bool :=
  match v with
  | None | Some JNull => true
  | Some _ => false
  end.

(** [v.name] for a value that is not nullish and a name that no built-in
    prototype defines ([content], [text]): only objects have it. *)
Definition getNamed (v : option (JSON double)) (name : jsstring)
    : option (JSON double) :=
  match v with
  | Some (JObject props) => props !! name
  | _ => None
  end.

(** [v[0]] for a value that is not nullish. *)
Definition getFirst (v : option (JSON double)) : option (JSON double) :=
  match v with
  | Some (JArray items) => items !! 0
  | Some (JObject props) => props !! js "0"
  | Some (JString (c :: _)) => Some (JString [c])
  | _ => None
  end.

(** [responseBody.content?.[0]?.text?.trim()]: the trimmed text, [None] for
    [undefined], or the [TypeError] raised. *)
Definition teacherText (responseBody : JSON double) : Result (option jsstring) :=
  match responseBody with
  | JNull => Err (runtimeMessage ReadPropertyOfNull)
  | _ =>
      let content := getNamed (Some responseBody) (js "content") in
      let first := if nullish content then None else getFirst content in
      let text := if nullish first then None else getNamed first (js "text") in
      match text with
      | None | Some JNull => Ok None
      | Some (JString s) => Ok (Some (trim s))
      | Some _ => Err (runtimeMessage NotAFunction)
      end
  end.

Section Service.
Variable this : DistillationService.
Variable client : BedrockRuntimeClient.

Definition invokeCommand (example : TrainingExample double) : InvokeModelCommand :=
  {| modelId := teacherModelId this;
     contentType := js "application/json";
     accept := js "application/json";
     anthropic_version := js "bedrock-2023-05-31";
     max_tokens := 200;
     userContent := createDistillationPrompt example |}.

(** The [try] block of [generateTeacherOutput] up to the value of
    [responseBody.content?.[0]?.text?.trim()], or the message of what it
    threw ([error instanceof Error ? error.message : String(error)]). *)
Definition teacherAttempt (n : nat) (example : TrainingExample double)
    : Result (option jsstring) :=
  match client n (invokeCommand example) with
  | Err e => Err e
  | Ok body =>
      match JSON_parse body with
      | Err e => Err e
      | Ok responseBody => teacherText responseBody
      end
  end.

(** [generateTeacherOutput], for the [n]-th invocation of the client. *)
Definition generateTeacherOutput (n : nat) (example : TrainingExample double)
    : PromptExample double :=
  match teacherAttempt n example with
  | Ok text =>
      let teacherCompletion := or_else text (title example) in
      {| prompt := createStudentPrompt example;
         completion := teacherCompletion;
         pmetadata :=
           Some (spread (metadata example)
                   (<[js "teacherModel" := JString (teacherModelId this)]>
                   (<[js "originalTitle" := JString (title example)]>
                   (<[js "publishedDate" := JString (publishedDate example)]>
                   (<[js "publication" := JString (publication example)]>
                   (<[js "articleId" := JString (articleId example)]> ∅)))))) |}
  | Err message =>
      {| prompt := createStudentPrompt example;
         completion := title example;
         pmetadata :=
           Some (spread (metadata example)
                   (<[js "teacherModelError" := JString message]>
                   (<[js "publishedDate" := JString (publishedDate example)]>
                   (<[js "publication" := JString (publication example)]>
                   (<[js "articleId" := JString (articleId example)]> ∅))))) |}
  end.

Section Loop.
Variable examples : list (TrainingExample double).

(** [examples.slice(i, i + maxConcurrentRequests)]. *)
Definition batchAt (i : nat) : list (TrainingExample double) :=
  take (Pos.to_nat (maxConcurrentRequests this)) (drop i examples).

(** [await Promise.all(batch.map(generateTeacherOutput))]: the calls are
    issued in the order of the batch and the results keep that order. *)
Definition batchResults (i : nat) : list (PromptExample double) :=
  imap (fun j example => generateTeacherOutput (i + j) example) (batchAt i).

(** The [for (let i = 0; i < examples.length; i += maxConcurrentRequests)]
    loop with the [prompts] accumulated so far. *)
Equations distill_loop (i : nat) (prompts : list (PromptExample double))
    : list (PromptExample double) by wf (length examples - i) lt :=
distill_loop i prompts with decide (i < length examples) => {
  | left _ =>
      distill_loop (i + Pos.to_nat (maxConcurrentRequests this))
                   (prompts ++ batchResults i)
  | right _ => prompts }.
Next Obligation. lia. Qed.

End Loop.

Definition distillExamples (examples : list (TrainingExample double))
    : list (PromptExample double) :=
  distill_loop examples 0 [].

End Service.
End Distillation.
End DistillationService.

(** ** The process in which the data job runs *)

(** [PutObjectCommand] as built by [saveTrainingDataset]. *)
Record PutObjectCommand : Type := {
  Bucket : jsstring;
  Key : jsstring;
  Body : jsstring;
  ContentType : jsstring;
  Metadata_training_run_id : jsstring;
  Metadata_prompt_count : jsstring;
  Metadata_publication_id : jsstring;
  Metadata_look_back_days : jsstring
}.

(** [CreateModelCustomizationJobCommand] as built by
    [createModelCustomizationJob]. *)
Record CreateModelCustomizationJobCommand : Type := {
  jobName : jsstring;
  customModelName : jsstring;
  roleArn : option jsstring;
  baseModelIdentifier : jsstring;
  customizationType : jsstring;
  trainingDataConfig_s3Uri : jsstring;
  hyperParameters : gmap jsstring jsstring;
  outputDataConfig_s3Uri : jsstring
}.

(** The calls that leave the process, and the two stages whose invocation
    the specification speaks about. *)
Inductive Event : Type :=
  | QueryTrainingData
  | CleanExamples
  | DistillExamples
  | S3Send (command : PutObjectCommand)
  | BedrockSend (command : CreateModelCustomizationJobCommand).

(** The process state: how many times [Date.now()] was read, and the
    events so far, oldest first. *)
Record Process : Type := {
  clockReads : nat;
  events : list Event
}.

(** How an asynchronous function ends: it returns, it throws (its promise
    rejects), or the process exits inside it. *)
Inductive Completion (A : Type) : Type :=
  | Returned (a : A)
  | Thrown (message : jsstring)
  | Exited (code : Z).
Arguments Returned {A} a.
Arguments Thrown {A} message.
Arguments Exited {A} code.

Definition Run (A : Type) : Type := Process -> Process * Completion A.

Definition ret {A} (a : A) : Run A := fun p => (p, Returned a).

Definition bind {A B} (m : Run A) (k : A -> Run B) : Run B :=
  fun p =>
    match m p with
    | (p', Returned a) => k a p'
    | (p', Thrown e) => (p', Thrown e)
    | (p', Exited c) => (p', Exited c)
    end.

Notation "'let*' x ':=' m 'in' k" := (bind m (fun x => k))
  (at level 10, x binder, m at level 100, k at level 200, only parsing).

(** [throw new Error(message)]. *)
Definition throw {A} (message : jsstring) : Run A := fun p => (p, Thrown message).

(** [process.exit(code)]. *)
Definition exit {A} (code : Z) : Run A := fun p => (p, Exited code).

(** [try { body } catch (error) { handler }]; an exit is not caught. *)
Definition tryCatch {A} (body : Run A) (handler : jsstring -> Run A) : Run A :=
  fun p =>
    match body p with
    | (p', Thrown e) => handler e p'
    | r => r
    end.

Definition emit (e : Event) : Run unit :=
  fun p => ({| clockReads := clockReads p; events := events p ++ [e] |}, Returned tt).

(** [Date.now()], given the successive readings of the clock. *)
Definition DateNow (clock : nat -> Z) : Run Z :=
  fun p => ({| clockReads := S (clockReads p); events := events p |},
            Returned (clock (clockReads p))).

(** [await] of a call whose outcome is known. *)
Definition await {A} (r : Result A) : Run A :=
  match r with
  | Ok a => ret a
  | Err e => throw e
  end.

Definition start : Process := {| clockReads := 0; events := [] |}.

(** The commands sent to the object store and to the training service, in
    the order they were sent. *)
Definition storedObjects (p : Process) : list PutObjectCommand :=
  omap (fun e => match e with S3Send c => Some c | _ => None end) (events p).

Definition submittedJobs (p : Process) : list CreateModelCustomizationJobCommand :=
  omap (fun e => match e with BedrockSend c => Some c | _ => None end) (events p).

(** ** The dataset writer: [StorageService.saveTrainingDataset] *)

Module StorageService.
Section Writer.
Context {double : Type}.
Variable serializeNumber : double -> jsstring.
Variable clock : nat -> Z.

(** [s3Client.send(command)]. *)
Variable s3Client : PutObjectCommand -> Result unit.

(** The version token, the storage key and the location in the words of
    the specification. *)
Definition versionToken (submissionTimestamp : Z) (runId : jsstring) : jsstring :=
  Z_toString submissionTimestamp ++ js "-" ++ runId.

Definition datasetKey (publicationId : option jsstring) (version : jsstring)
    : jsstring :=
  js "datasets/" ++ or_else publicationId (js "all") ++ js "/" ++ version
  ++ js "/training-data.jsonl".

Definition s3Uri (bucket key : jsstring) : jsstring :=
  js "s3://" ++ bucket ++ js "/" ++ key.

Definition jsonlContent (prompts : list (PromptExample double)) : jsstring :=
  join (js "
") (map (fun prompt => JSON_stringify serializeNumber (PromptExample_toJSON prompt))
        prompts).

Definition saveTrainingDataset (prompts : list (PromptExample double))
    (config : TrainingConfig) : Run ProcessingResult :=
  let* now := DateNow clock in
  let datasetVersion := Z_toString now ++ js "-" ++ trainingRunId config in
  let key := js "datasets/" ++ or_else (publicationId config) (js "all") ++ js "/"
             ++ datasetVersion ++ js "/training-data.jsonl" in
  let command :=
    {| Bucket := trainingDataBucket config;
       Key := key;
       Body := jsonlContent prompts;
       ContentType := js "application/jsonl";
       Metadata_training_run_id := trainingRunId config;
       Metadata_prompt_count := Z_toString (Z.of_nat (length prompts));
       Metadata_publication_id := or_else (publicationId config) (js "all");
       Metadata_look_back_days := intOrNaN_toString (lookBackDays config) |} in
  let* _ := emit (S3Send command) in
  let* _ := await (s3Client command) in
  let s3Location := js "s3://" ++ trainingDataBucket config ++ js "/" ++ key in
  let* finished := DateNow clock in
  ret {| promptCount := length prompts;
         s3Location := s3Location;
         datasetVersion := datasetVersion;
         processingTime := finished |}.

End Writer.
End StorageService.

(** ** The training job submitter: [BedrockService] *)

Module BedrockService.
Section Submitter.
Variable clock : nat -> Z.

(** [interface BedrockTrainingJobConfig]. *)
Record BedrockTrainingJobConfig : Type := {
  modelId : jsstring;
  trainingDataS3Uri : jsstring;
  outputDataConfigS3Uri : jsstring;
  baseModelArn : jsstring;
  cfgHyperParameters : option (gmap jsstring jsstring)
}.

(** [bedrockClient.send(command)]: the [jobArn] of the response, if any. *)
Variable bedrockClient : CreateModelCustomizationJobCommand -> Result (option jsstring).

(** The job and model names, from the configuration, the stage and the
    time read when the command is built. *)
Definition jobNameOf (config : TrainingConfig) (stage : jsstring) : jsstring :=
  js "training-" ++ trainingRunId config ++ js "-" ++ stage.

Definition customModelNameOf (config : TrainingConfig) (stage : jsstring)
    (now : Z) : jsstring :=
  js "custom-model-" ++ or_else (publicationId config) (js "all") ++ js "-"
  ++ stage ++ js "-" ++ Z_toString now.

(** [createModelCustomizationJob]; [STAGE] and [BEDROCK_ROLE_ARN] are the
    values of the environment variables. *)
Definition createModelCustomizationJob (STAGE BEDROCK_ROLE_ARN : option jsstring)
    (config : TrainingConfig) (result : ProcessingResult)
    (bedrockConfig : BedrockTrainingJobConfig) : Run jsstring :=
  let stage := or_else STAGE (js "dev") in
  let* now := DateNow clock in
  let command :=
    {| jobName := jobNameOf config stage;
       customModelName := customModelNameOf config stage now;
       roleArn := BEDROCK_ROLE_ARN;
       baseModelIdentifier := baseModelArn bedrockConfig;
       customizationType := js "FINE_TUNING";
       trainingDataConfig_s3Uri := s3Location result;
       hyperParameters := default ∅ (cfgHyperParameters bedrockConfig);
       outputDataConfig_s3Uri := outputDataConfigS3Uri bedrockConfig |} in
  tryCatch
    (let* _ := emit (BedrockSend command) in
     let* response := await (bedrockClient command) in
     let jobId := or_else response (js "unknown") in
     ret jobId)
    (fun error => throw error).

End Submitter.
End BedrockService.

(** ** The data job: [main] of [app/src/index.ts] *)

Module Main.
Section DataJob.
Context {double : Type}.
Variable serializeNumber : double -> jsstring.
Variable JSON_parse : jsstring -> Result (JSON double).
Variable runtimeMessage : DistillationService.RuntimeError -> jsstring.
Variable convert : jsstring -> jsstring.

(** [parseInt(s, 10)]. *)
Variable parseInt : jsstring -> intOrNaN.

(** [process.env]. *)
Record Env : Type := {
  AWS_REGION : option jsstring;
  TRAINING_DATA_BUCKET : option jsstring;
  MIN_PROMPT_COUNT : option jsstring;
  DEFAULT_LOOK_BACK_DAYS : option jsstring;
  LOOK_BACK_DAYS : option jsstring;
  TRAINING_RUN_ID : option jsstring;
  PUBLICATION_ID : option jsstring;
  ATHENA_DATABASE : option jsstring;
  ATHENA_TABLE : option jsstring;
  ATHENA_WORKGROUP : option jsstring;
  ATHENA_OUTPUT_LOCATION : option jsstring;
  TEACHER_MODEL_ID : option jsstring;
  BEDROCK_MODEL_ID : option jsstring;
  BEDROCK_BASE_MODEL_ARN : option jsstring;
  BEDROCK_ROLE_ARN : option jsstring;
  STAGE : option jsstring
}.

(** What is outside the process: the clock, and the outcome of each
    awaited call to a service. [queryTrainingData] is the outcome of
    [dataService.queryTrainingData(config)] as a whole. *)
Record World : Type := {
  clock : nat -> Z;
  queryTrainingData : TrainingConfig -> Result (list (TrainingExample double));
  teacher : DistillationService.BedrockRuntimeClient;
  s3Client : PutObjectCommand -> Result unit;
  bedrockClient : CreateModelCustomizationJobCommand -> Result (option jsstring)
}.

Variable env : Env.
Variable world : World.

(** A template literal renders [undefined] as the word. *)
Definition render (x : option jsstring) : jsstring :=
  match x with
  | Some s => s
  | None => js "undefined"
  end.

Definition insufficient (what : jsstring) (found : nat) (required : intOrNaN)
    : jsstring :=
  what ++ Z_toString (Z.of_nat found) ++ js " found, "
  ++ intOrNaN_toString required ++ js " required".

(** The body of the [try] block. *)
Definition pipeline (config : TrainingConfig) : Run unit :=
  let region := or_else (AWS_REGION env) (js "eu-west-1") in
  let minPromptCount := minPromptCount config in
  (* Step 1: Query data from Athena *)
  let* _ := emit QueryTrainingData in
  let* rawExamples := await (queryTrainingData world config) in
  if length_lt (length rawExamples) minPromptCount
  then throw (insufficient (js "Insufficient examples: ")
                           (length rawExamples) minPromptCount)
  else
  (* Step 2: Clean and validate data *)
  let dataCleaner := DataCleaner.new in
  let* _ := emit CleanExamples in
  let cleanedExamples := (DataCleaner.cleanExamples convert dataCleaner rawExamples).2 in
  if length_lt (length cleanedExamples) minPromptCount
  then throw (insufficient (js "Insufficient examples after cleaning: ")
                           (length cleanedExamples) minPromptCount)
  else
  (* Step 3: Use teacher model for distillation *)
  let teacherModelId :=
    or_else (TEACHER_MODEL_ID env) (js "anthropic.claude-3-5-sonnet-20241022-v2:0") in
  let distillationService :=
    DistillationService.new
      {| DistillationService.cfgTeacherModelId := teacherModelId;
         DistillationService.cfgRegion := region;
         DistillationService.cfgMaxConcurrentRequests := Some 5%N |} in
  let* _ := emit DistillExamples in
  let prompts :=
    DistillationService.distillExamples JSON_parse runtimeMessage
      distillationService (teacher world) cleanedExamples in
  (* Step 4: Validate minimum prompt count *)
  if length_lt (length prompts) minPromptCount
  then exit 1%Z
  else
  (* Step 5: Save to S3 *)
  let* result :=
    StorageService.saveTrainingDataset serializeNumber (clock world)
      (s3Client world) prompts config in
  (* Step 6: Initiate Bedrock model training *)
  let bedrockConfig :=
    {| BedrockService.modelId := or_else (BEDROCK_MODEL_ID env) (js "anthropic.claude-v2");
       BedrockService.trainingDataS3Uri := s3Location result;
       BedrockService.outputDataConfigS3Uri :=
         js "s3://" ++ trainingDataBucket config ++ js "/bedrock-outputs/"
         ++ trainingRunId config ++ js "/";
       BedrockService.baseModelArn := or_else (BEDROCK_BASE_MODEL_ARN env) (js "");
       BedrockService.cfgHyperParameters := None |} in
  let* jobArn :=
    tryCatch
      (BedrockService.createModelCustomizationJob (clock world)
         (bedrockClient world) (STAGE env) (BEDROCK_ROLE_ARN env)
         config result bedrockConfig)
      (fun error => throw error) in
  exit 0%Z.

(** [try { ... } catch (error) { process.exit(1) }]. *)
Definition tryBlock (config : TrainingConfig) : Run unit :=
  tryCatch (pipeline config) (fun error => exit 1%Z).

(** [main()]: the configuration read from the environment, then the
    [try] block with its [catch]. *)
Definition main : Run unit :=
  let trainingDataBucket := TRAINING_DATA_BUCKET env in
  let minPromptCount := parseInt (or_else (MIN_PROMPT_COUNT env) (js "100")) in
  let defaultLookBackDays := parseInt (or_else (DEFAULT_LOOK_BACK_DAYS env) (js "30")) in
  let lookBackDays :=
    parseInt (or_else (LOOK_BACK_DAYS env) (intOrNaN_toString defaultLookBackDays)) in
  let* trainingRunId :=
    if truthy_opt (TRAINING_RUN_ID env)
    then ret (render (TRAINING_RUN_ID env))
    else (let* now := DateNow (clock world) in ret (js "run-" ++ Z_toString now)) in
  let publicationId := PUBLICATION_ID env in
  let athenaOutputLocation :=
    or_else (ATHENA_OUTPUT_LOCATION env)
            (js "s3://" ++ render trainingDataBucket ++ js "/athena-results/") in
  if negb (truthy_opt trainingDataBucket)
  then throw (js "TRAINING_DATA_BUCKET environment variable is required")
  else
  let config :=
    {| lookBackDays := lookBackDays;
       publicationId := publicationId;
       trainingRunId := trainingRunId;
       minPromptCount := minPromptCount;
       trainingDataBucket := render trainingDataBucket;
       athenaDatabase := or_else (ATHENA_DATABASE env) (js "default");
       athenaTable := or_else (ATHENA_TABLE env) (js "articles");
       athenaWorkgroup := or_else (ATHENA_WORKGROUP env) (js "primary");
       athenaOutputLocation := athenaOutputLocation |} in
  tryBlock config.

(** [main().catch(error => process.exit(1))]: the whole program, from a
    fresh process. *)
Definition program : Process * Completion unit :=
  tryCatch main (fun error => exit 1%Z) start.

End DataJob.
End Main.

(** ** Concrete data used to run the definitions *)

Module Samples.
Import DataService.
Local Open Scope string_scope.

(** The metadata of the samples holds no number. *)
Definition number : Type := Empty_set.
Definition serializeNumber (d : number) : jsstring := match d with end.

(** A parser that knows the two texts the samples use. *)
Definition JSON_parse (text : jsstring) : Result (JSON number) :=
  if bool_decide (text = js "{}") then Ok (JObject ∅)
  else if bool_decide (text = js "blank")
  then Ok (JObject {[ js "content" :=
                        JArray [JObject {[ js "text" := JString (js "   ") ]}] ]})
  else Err (js "Unexpected token").

Definition rowOf (columns : list string) : Row :=
  {| Data := Some (map (fun c => {| VarCharValue := Some (js c) |}) columns) |}.

Definition recordOf (id : string) : TrainingExample number :=
  {| articleId := js id;
     title := js "A headline";
     content := js "Some body text";
     publication := js "gazette";
     publishedDate := js "2024-05-01";
     metadata := Some (JObject ∅) |}.

Definition dataRow (id : string) : Row :=
  rowOf [id; "A headline"; "Some body text"; "gazette"; "2024-05-01"].

Definition headerRow : Row :=
  rowOf ["articleId"; "title"; "content"; "publication"; "publishedDate"; "metadata"].

(** A result set of three records in two pages; as in Athena, only the
    first page starts with the header row. *)
Definition page1 : GetQueryResultsOutput :=
  {| Rows := Some [headerRow; dataRow "a1"]; NextToken := Some (js "page-2") |}.
Definition page2 : GetQueryResultsOutput :=
  {| Rows := Some [dataRow "a2"; dataRow "a3"]; NextToken := None |}.

Definition twoPages : AthenaClient :=
  fun token =>
    match token with
    | None => Ok page1
    | Some t => if bool_decide (t = js "page-2") then Ok page2
                else Err (js "InvalidRequestException")
    end.

Definition runtimeMessage (e : DistillationService.RuntimeError) : jsstring :=
  match e with
  | DistillationService.ReadPropertyOfNull =>
      js "Cannot read properties of null (reading 'content')"
  | DistillationService.NotAFunction => js "trim is not a function"
  end.

Definition service : DistillationService.DistillationService :=
  DistillationService.new
    {| DistillationService.cfgTeacherModelId := js "teacher";
       DistillationService.cfgRegion := js "eu-west-1";
       DistillationService.cfgMaxConcurrentRequests := Some 2%N |}.

(** A teacher whose every answer has a blank text, and one whose every
    call fails. *)
Definition blankTeacher : DistillationService.BedrockRuntimeClient :=
  fun _ _ => Ok (js "blank").
Definition failingTeacher : DistillationService.BedrockRuntimeClient :=
  fun _ _ => Err (js "ThrottlingException").

(** A record whose source metadata uses a provenance field name. *)
Definition annotatedRecord : TrainingExample number :=
  {| articleId := js "a9";
     title := js "A headline";
     content := js "Some body text";
     publication := js "gazette";
     publishedDate := js "2024-05-01";
     metadata :=
       Some (JObject {[ js "teacherModelError" := JString (js "from the source") ]}) |}.

Definition config (runId : string) : TrainingConfig :=
  {| lookBackDays := Int 30;
     publicationId := None;
     trainingRunId := js runId;
     minPromptCount := Int 2;
     trainingDataBucket := js "bedrock-training-data-dev";
     athenaDatabase := js "default";
     athenaTable := js "articles";
     athenaWorkgroup := js "primary";
     athenaOutputLocation := js "s3://bedrock-training-data-dev/athena-results/" |}.

(** A clock that stands still at the given time. *)
Definition clockAt (now : Z) : nat -> Z := fun _ => now.

Definition acceptingStore : PutObjectCommand -> Result unit := fun _ => Ok tt.

Definition acceptingTrainer
    : CreateModelCustomizationJobCommand -> Result (option jsstring) :=
  fun _ => Ok (Some (js "arn:aws:bedrock:job/1")).

Definition twoExamples : list (PromptExample number) :=
  DistillationService.distillExamples JSON_parse runtimeMessage service
    failingTeacher [recordOf "a1"; recordOf "a2"].

Definition descriptor : ProcessingResult :=
  {| promptCount := 2;
     s3Location := js "s3://bedrock-training-data-dev/datasets/all/1-run-1/training-data.jsonl";
     datasetVersion := js "1-run-1";
     processingTime := 1 |}.

Definition jobConfig : BedrockService.BedrockTrainingJobConfig :=
  {| BedrockService.modelId := js "anthropic.claude-v2";
     BedrockService.trainingDataS3Uri := s3Location descriptor;
     BedrockService.outputDataConfigS3Uri := js "s3://bedrock-training-data-dev/bedrock-outputs/run-1/";
     BedrockService.baseModelArn := js "";
     BedrockService.cfgHyperParameters := None |}.

(** One submission: the process after [createModelCustomizationJob] ran at
    the given time for the given run. *)
Definition submission (now : Z) (runId : string) : Process :=
  (BedrockService.createModelCustomizationJob (clockAt now) acceptingTrainer
     (Some (js "dev")) None (config runId) descriptor jobConfig start).1.

(** A run whose query returns a single record, against a minimum of 2. *)
Definition env : Main.Env :=
  {| Main.AWS_REGION := None;
     Main.TRAINING_DATA_BUCKET := Some (js "bedrock-training-data-dev");
     Main.MIN_PROMPT_COUNT := Some (js "2");
     Main.DEFAULT_LOOK_BACK_DAYS := None;
     Main.LOOK_BACK_DAYS := None;
     Main.TRAINING_RUN_ID := Some (js "run-1");
     Main.PUBLICATION_ID := None;
     Main.ATHENA_DATABASE := None;
     Main.ATHENA_TABLE := None;
     Main.ATHENA_WORKGROUP := None;
     Main.ATHENA_OUTPUT_LOCATION := None;
     Main.TEACHER_MODEL_ID := None;
     Main.BEDROCK_MODEL_ID := None;
     Main.BEDROCK_BASE_MODEL_ARN := None;
     Main.BEDROCK_ROLE_ARN := None;
     Main.STAGE := Some (js "dev") |}.

Definition world (records : list (TrainingExample number)) : Main.World :=
  {| Main.clock := clockAt 1;
     Main.queryTrainingData := fun _ => Ok records;
     Main.teacher := failingTeacher;
     Main.s3Client := acceptingStore;
     Main.bedrockClient := acceptingTrainer |}.

(** An [html-to-text] that finds no markup. *)
Definition convert (text : jsstring) : jsstring := text.

(** A [parseInt] that knows the numerals the samples use. *)
Definition parseInt (text : jsstring) : intOrNaN :=
  if bool_decide (text = js "2") then Int 2
  else if bool_decide (text = js "30") then Int 30
  else if bool_decide (text = js "100") then Int 100
  else NaN.

(** A record with the given id, title and content. *)
Definition article (id title content : string) : TrainingExample number :=
  {| articleId := js id;
     title := js title;
     content := js content;
     publication := js "gazette";
     publishedDate := js "2024-05-01";
     metadata := None |}.

(** A record whose title holds a single quotation mark. *)
Definition quotedArticle (id content : string) : TrainingExample number :=
  {| articleId := js id;
     title := (js "He said " ++ [34%N] ++ js "no")%list;
     content := js content;
     publication := js "gazette";
     publishedDate := js "2024-05-01";
     metadata := None |}.

Definition longContent : string :=
  "The council voted on Tuesday to fund a second bridge across the river.".

(** A teacher that answers every call but the second, which fails. *)
Definition secondCallFails : DistillationService.BedrockRuntimeClient :=
  fun n _ => if Nat.eqb n 1 then Err (js "ThrottlingException") else Ok (js "headline").

Definition headlineParser (text : jsstring) : Result (JSON number) :=
  if bool_decide (text = js "headline")
  then Ok (JObject {[ js "content" :=
                        JArray [JObject {[ js "text" := JString (js " Bridge funded ") ]}] ]})
  else Err (js "Unexpected token").

(** A record that passes every cleaning stage. *)
Definition longRecord (id : string) : TrainingExample number :=
  {| articleId := js id;
     title := js "Council approves the new bridge";
     content := js "The council voted on Tuesday to fund a second bridge across the river.";
     publication := js "gazette";
     publishedDate := js "2024-05-01";
     metadata := None |}.

(** A page whose second data row carries metadata that is not JSON. *)
Definition badMetadataPage : GetQueryResultsOutput :=
  {| Rows := Some [headerRow; dataRow "a1";
                   rowOf ["a2"; "A headline"; "Some body text"; "gazette";
                          "2024-05-01"; "{not json"];
                   dataRow "a3"];
     NextToken := None |}.

(** A backend that fails on the request for the second page, and one that
    answers every request with a page carrying a next-page token. *)
Definition failsOnSecondPage : AthenaClient :=
  fun token =>
    match token with
    | None => Ok page1
    | Some _ => Err (js "ThrottlingException")
    end.

Definition endlessPages : AthenaClient := fun _ => Ok page1.

(** A record with a content of 600 code units. *)
Definition wideRecord : TrainingExample number :=
  {| articleId := js "w1";
     title := js "Council approves the new bridge";
     content := replicate 600 120%N;
     publication := js "gazette";
     publishedDate := js "2024-05-01";
     metadata := None |}.

(** A service with the same teacher and a window of seven. *)
Definition wideService : DistillationService.DistillationService :=
  DistillationService.new
    {| DistillationService.cfgTeacherModelId := js "teacher";
       DistillationService.cfgRegion := js "eu-west-1";
       DistillationService.cfgMaxConcurrentRequests := Some 7%N |}.

(** An environment without the bucket, and one whose minimum is not a
    number. *)
Definition envWithoutBucket : Main.Env :=
  {| Main.AWS_REGION := None;
     Main.TRAINING_DATA_BUCKET := None;
     Main.MIN_PROMPT_COUNT := Some (js "2");
     Main.DEFAULT_LOOK_BACK_DAYS := None;
     Main.LOOK_BACK_DAYS := None;
     Main.TRAINING_RUN_ID := None;
     Main.PUBLICATION_ID := None;
     Main.ATHENA_DATABASE := None;
     Main.ATHENA_TABLE := None;
     Main.ATHENA_WORKGROUP := None;
     Main.ATHENA_OUTPUT_LOCATION := None;
     Main.TEACHER_MODEL_ID := None;
     Main.BEDROCK_MODEL_ID := None;
     Main.BEDROCK_BASE_MODEL_ARN := None;
     Main.BEDROCK_ROLE_ARN := None;
     Main.STAGE := Some (js "dev") |}.

Definition configWithoutMinimum : TrainingConfig :=
  {| lookBackDays := Int 30;
     publicationId := None;
     trainingRunId := js "run-1";
     minPromptCount := NaN;
     trainingDataBucket := js "bedrock-training-data-dev";
     athenaDatabase := js "default";
     athenaTable := js "articles";
     athenaWorkgroup := js "primary";
     athenaOutputLocation := js "s3://bedrock-training-data-dev/athena-results/" |}.

(** Worlds in which the store, or the training service, is down. *)
Definition worldStoreDown (records : list (TrainingExample number)) : Main.World :=
  {| Main.clock := clockAt 1;
     Main.queryTrainingData := fun _ => Ok records;
     Main.teacher := failingTeacher;
     Main.s3Client := fun _ => Err (js "ServiceUnavailable");
     Main.bedrockClient := acceptingTrainer |}.

Definition worldTrainerDown (records : list (TrainingExample number)) : Main.World :=
  {| Main.clock := clockAt 1;
     Main.queryTrainingData := fun _ => Ok records;
     Main.teacher := failingTeacher;
     Main.s3Client := acceptingStore;
     Main.bedrockClient := fun _ => Err (js "ValidationException") |}.

(** An Athena whose query is queued, then running, then done, on a clock
    that advances by two seconds per reading. *)
Definition athenaOf (statuses : nat -> Result QueryExecutionStatus)
    (started : option jsstring) : Athena :=
  {| startQueryExecution := fun _ => Ok started;
     getQueryExecution := statuses;
     results := twoPages;
     now := fun n => (1000 + 2000 * Z.of_nat n)%Z;
     lookBackDate := fun _ => Ok (js "2024-04-01") |}.

Definition statusOf (state : string) : Result QueryExecutionStatus :=
  Ok {| State := Some (js state); StateChangeReason := None |}.

Definition succeedsAtThirdPoll (n : nat) : Result QueryExecutionStatus :=
  match n with
  | 0 => statusOf "QUEUED"
  | 1 => statusOf "RUNNING"
  | _ => statusOf "SUCCEEDED"
  end.

Definition cancelledAtSecondPoll (n : nat) : Result QueryExecutionStatus :=
  match n with
  | 0 => statusOf "RUNNING"
  | _ => Ok {| State := Some (js "CANCELLED");
               StateChangeReason := Some (js "Query cancelled by user") |}
  end.

Definition alwaysRunning (n : nat) : Result QueryExecutionStatus := statusOf "RUNNING".

Definition freshSession : Session := {| reads := 0; polls := 0 |}.





End Samples.

(* ===================================================================== *)
(** * Part II: properties *)
(* ===================================================================== *)

Section OrchestratorFacts.
Import Orchestrator.

Lemma afterPoll_COMPLETED : afterPoll (js "COMPLETED") = TrainingSucceeded.
Proof. reflexivity. Qed.

Lemma afterPoll_FAILED :
  afterPoll (js "FAILED") = NotifyFailure /\
  definition NotifyFailure = Task TrainingFailed /\
  definition TrainingFailed = Fail.
Proof. repeat split. Qed.

Lemma afterPoll_in_progress :
  afterPoll (js "SUBMITTED") = WaitForTraining /\
  afterPoll (js "IN_PROGRESS") = WaitForTraining.
Proof. split; reflexivity. Qed.


(** While every poll answers STOPPED the machine stays in the polling
    loop: it never reaches a terminal state nor the failure notification. *)
Lemma stopped_polls_forever (w : World) :
  (forall k, getModelCustomizationJob w k = js "STOPPED") ->
  forall n s d,
    s = WaitForTraining \/ s = CheckTrainingStatus
    \/ (s = HandleTrainingCompletion /\ trainingStatus d = js "STOPPED") ->
    let s' := (run w n (s, d)).1 in
    s' = WaitForTraining \/ s' = CheckTrainingStatus \/ s' = HandleTrainingCompletion.
Proof.
  intros Hpoll. induction n as [|n IH]; intros s d Hs.
  - simpl. tauto.
  - destruct Hs as [-> | [-> | [-> Hd]]]; cbn [run step definition].
    + apply IH. tauto.
    + apply IH. right. right. split; [done|]. cbn [runTask trainingStatus].
      apply Hpoll.
    + cbn [choose evalCondition]. rewrite Hd.
      rewrite !bool_decide_eq_false_2 by discriminate.
      apply IH. tauto.
Qed.

(** C1 (code): a poll that returns STOPPED takes the [otherwise] branch of
    [HandleTrainingCompletion] and re-enters [WaitForTraining]; it does not
    reach [NotifyFailure]. *)
Theorem C1_stopped_reenters_wait :
  afterPoll (js "STOPPED") = WaitForTraining /\
  afterPoll (js "STOPPED") <> NotifyFailure.
Proof. split; [reflexivity | discriminate]. Qed.

End OrchestratorFacts.

(** ** The cleaning pipeline *)

Section CleanerFacts.
Import DataCleaner.
Context {double : Type}.
Implicit Types (example e : TrainingExample double).
Implicit Types (examples unique : list (TrainingExample double)).
Implicit Types (seen : gset jsstring).

(** The array built so far is only ever extended. *)
Lemma filterDuplicates_loop_unique examples seen unique :
  (filterDuplicates_loop examples seen unique).2
  = unique ++ (filterDuplicates_loop examples seen []).2.
Proof.
  revert seen unique.
  induction examples as [|e rest IH]; intros seen unique; simpl.
  - by rewrite app_nil_r.
  - case_bool_decide.
    + apply IH.
    + rewrite (IH _ (unique ++ [e])), (IH _ ([] ++ [e])).
      by rewrite <- app_assoc.
Qed.

(** What the loop keeps of [examples] when started with the set [seen]. *)
Lemma kept_cons e examples seen :
  (filterDuplicates_loop (e :: examples) seen []).2
  = if bool_decide (articleId e ∈ seen)
    then (filterDuplicates_loop examples seen []).2
    else e :: (filterDuplicates_loop examples ({[articleId e]} ∪ seen) []).2.
Proof.
  simpl. case_bool_decide; [done|].
  by rewrite filterDuplicates_loop_unique.
Qed.

Lemma kept_not_seen examples seen e :
  e ∈ (filterDuplicates_loop examples seen []).2 -> articleId e ∉ seen.
Proof.
  revert seen. induction examples as [|x rest IH]; intros seen.
  - simpl. by intros ?%elem_of_nil.
  - rewrite kept_cons. case_bool_decide as Hx.
    + apply IH.
    + intros [->|Hin]%elem_of_cons; [done|].
      apply IH in Hin. set_solver.
Qed.

Lemma kept_sublist examples seen :
  (filterDuplicates_loop examples seen []).2 `sublist_of` examples.
Proof.
  revert seen. induction examples as [|x rest IH]; intros seen.
  - done.
  - rewrite kept_cons. case_bool_decide.
    + by apply sublist_cons.
    + by apply sublist_skip.
Qed.

Lemma kept_NoDup examples seen :
  NoDup (articleId <$> (filterDuplicates_loop examples seen []).2).
Proof.
  revert seen. induction examples as [|x rest IH]; intros seen.
  - simpl. constructor.
  - rewrite kept_cons. case_bool_decide; [apply IH|].
    rewrite fmap_cons. constructor; [|apply IH].
    intros (e & Heq & Hin)%list_elem_of_fmap.
    apply kept_not_seen in Hin. set_solver.
Qed.

(** Every identifier of the input that was not seen yet is represented. *)
Lemma kept_complete examples seen e :
  e ∈ examples -> articleId e ∉ seen ->
  articleId e ∈ articleId <$> (filterDuplicates_loop examples seen []).2.
Proof.
  revert seen. induction examples as [|x rest IH]; intros seen Hin Hseen.
  - by apply elem_of_nil in Hin.
  - rewrite kept_cons. case_bool_decide as Hx.
    + apply elem_of_cons in Hin as [->|Hin]; [done|]. by apply IH.
    + rewrite fmap_cons.
      destruct (decide (articleId e = articleId x)) as [->|Hne].
      * apply elem_of_cons. by left.
      * apply elem_of_cons. right.
        apply elem_of_cons in Hin as [->|Hin]; [done|].
        apply IH; [done|].
        rewrite elem_of_union, elem_of_singleton. tauto.
Qed.

(** A kept example is the first of the input with its identifier. *)
Lemma kept_first examples seen e :
  e ∈ (filterDuplicates_loop examples seen []).2 ->
  snd <$> list_find (fun x => articleId x = articleId e) examples = Some e.
Proof.
  revert seen. induction examples as [|x rest IH]; intros seen.
  - simpl. by intros ?%elem_of_nil.
  - rewrite kept_cons. simpl. case_bool_decide as Hx.
    + intros Hin. pose proof (kept_not_seen _ _ _ Hin) as Hns.
      case_decide as Heq; [congruence|].
      apply IH in Hin. destruct (list_find _ rest) as [[i y]|]; by simplify_eq/=.
    + intros [->|Hin]%elem_of_cons.
      * by rewrite decide_True.
      * pose proof (kept_not_seen _ _ _ Hin) as Hns.
        case_decide as Heq; [set_solver|].
        apply IH in Hin. destruct (list_find _ rest) as [[i y]|]; by simplify_eq/=.
Qed.

Example filterDuplicates_sample :
  (filterDuplicates {| seenArticleIds := {[ js "a2" ]} |}
     [Samples.article "a1" "first" ""; Samples.article "a2" "second" "";
      Samples.article "a1" "third" ""; Samples.article "a3" "fourth" "";
      Samples.article "a2" "fifth" ""]).2
  = [Samples.article "a1" "first" ""; Samples.article "a2" "second" "";
     Samples.article "a3" "fourth" ""].
Proof. vm_compute. reflexivity. Qed.

(** C6: [filterDuplicates] returns, in input order, exactly one example
    per article id of its input, and that example is the first one of the
    input with that id; the set of seen ids is cleared on entry, so the
    returned array is the same whatever the instance had seen before, in
    particular after an earlier call on the same instance. *)
Theorem C6_filterDuplicates_keeps_first_occurrences
    (this other : DataCleaner) examples
    (earlier : list (TrainingExample double)) :
  let unique := (filterDuplicates this examples).2 in
  unique `sublist_of` examples
  /\ NoDup (articleId <$> unique)
  /\ (forall e, e ∈ examples -> articleId e ∈ articleId <$> unique)
  /\ (forall e, e ∈ unique ->
        snd <$> list_find (fun x => articleId x = articleId e) examples = Some e)
  /\ (filterDuplicates other examples).2 = unique
  /\ (filterDuplicates (filterDuplicates this earlier).1 examples).2 = unique.
Proof.
  assert (Hsnd : forall t, (filterDuplicates t examples).2
                           = (filterDuplicates_loop examples ∅ []).2).
  { intros t. unfold filterDuplicates.
    by destruct (filterDuplicates_loop examples ∅ []). }
  simpl. rewrite !Hsnd. repeat split.
  - apply kept_sublist.
  - apply kept_NoDup.
  - intros e He. apply kept_complete; [done|set_solver].
  - intros e He. by eapply kept_first.
Qed.

(** The quotient test in integers. *)
Lemma allCapsRatio_gt example :
  (8 # 10 < allCapsRatio example)%Q
  <-> 4 * length (title example) < 5 * countMatches isUpperAZ (title example).
Proof.
  unfold allCapsRatio.
  assert (countMatches isUpperAZ (title example) <= length (title example)) as Hle
    by apply length_filter.
  revert Hle.
  generalize (countMatches isUpperAZ (title example)) as c.
  generalize (length (title example)) as n.
  intros n c Hle.
  unfold Qlt, Qdiv, Qmult, Qinv, inject_Z. simpl.
  destruct n as [|n].
  - simpl. lia.
  - rewrite Nat2Z.inj_succ, <- Zpos_P_of_succ_nat. simpl. lia.
Qed.

Lemma Qgtb_true (a b : Q) : Qgtb a b = true <-> (b < a)%Q.
Proof.
  unfold Qgtb. rewrite negb_true_iff, <- not_true_iff_false, Qle_bool_iff.
  split; [apply Qnot_le_lt | apply Qlt_not_le].
Qed.

Lemma validateExample_keep example :
  (validateExample example).2 = true <-> acceptable example.
Proof.
  unfold validateExample, acceptable.
  destruct (length (content example) <? 50) eqn:Hc;
    [apply Nat.ltb_lt in Hc; simpl; split; [done | lia] |].
  apply Nat.ltb_ge in Hc.
  destruct (length (title example) <? 5) eqn:Ht;
    [apply Nat.ltb_lt in Ht; simpl; split; [done | lia] |].
  apply Nat.ltb_ge in Ht. simpl.
  destruct (Qgtb (allCapsRatio example) (8 # 10)) eqn:Hq; simpl.
  - apply Qgtb_true in Hq.
    destruct (20 <? length (title example)) eqn:Hl; simpl.
    + apply Nat.ltb_lt in Hl. split; [done | tauto].
    + apply Nat.ltb_ge in Hl. split; [| done]. intros _. repeat split; lia.
  - assert (~ (8 # 10 < allCapsRatio example)%Q) as Hn.
    { rewrite <- Qgtb_true. by rewrite Hq. }
    split; [| done]. intros _. repeat split; [lia | lia | tauto].
Qed.

Lemma validateExample_warnings example :
  (validateExample example).1
  = if quoteCount example mod 2 =? 0 then [] else [unbalancedQuotesWarning example].
Proof.
  unfold validateExample.
  destruct (quoteCount example mod 2 =? 0); simpl;
    repeat (match goal with |- context [if ?b then _ else _] => destruct b end);
    reflexivity.
Qed.

Lemma validateEntitiesAndQuotes_kept examples e :
  e ∈ (validateEntitiesAndQuotes examples).2
  <-> e ∈ examples /\ (validateExample e).2 = true.
Proof.
  induction examples as [|x rest IH]; simpl.
  - split; [by intros ?%elem_of_nil | by intros [?%elem_of_nil _]].
  - destruct (validateExample x) as [w keep] eqn:Hx.
    destruct (validateEntitiesAndQuotes rest) as [w' kept]. simpl in *.
    destruct keep.
    + rewrite !elem_of_cons, IH. split.
      * intros [->|[? ?]]; [by rewrite Hx; auto | auto].
      * intros [[->|?] ?]; auto.
    + rewrite elem_of_cons, IH. split.
      * intros [? ?]; auto.
      * intros [[->|?] Hk]; [by rewrite Hx in Hk | auto].
Qed.

Lemma validateEntitiesAndQuotes_sublist examples :
  (validateEntitiesAndQuotes examples).2 `sublist_of` examples.
Proof.
  induction examples as [|x rest IH]; simpl; [done|].
  destruct (validateExample x) as [w keep].
  destruct (validateEntitiesAndQuotes rest) as [w' kept]. simpl in *.
  destruct keep; [by apply sublist_skip | by apply sublist_cons].
Qed.


(** A title of 21 capitals is dropped, one of 20 is kept, an unbalanced
    quotation mark is reported and the example kept, a short body is
    dropped. *)
Example validateEntitiesAndQuotes_sample :
  let shouting := Samples.article "a1" "BREAKING NEWS TONIGHT" Samples.longContent in
  let loud := Samples.article "a2" "BREAKING NEWS TONIGH" Samples.longContent in
  let quoted := Samples.quotedArticle "a3" Samples.longContent in
  let short := Samples.article "a4" "A headline" "Too short" in
  validateEntitiesAndQuotes [shouting; loud; quoted; short]
  = ([js "Unbalanced quotes detected in example: " ++ title quoted], [loud; quoted]).
Proof. vm_compute. reflexivity. Qed.


End CleanerFacts.

(** ** The record retriever *)

Section RetrieverFacts.
Import DataService.
Context {double : Type}.
Variable JSON_parse : jsstring -> Result (JSON double).

(** A row with fewer than five columns is passed over without an error. *)
Lemma decodeRow_short (row : Row) :
  length (default [] (Data row)) < 5 -> decodeRow JSON_parse row = Ok None.
Proof.
  intros Hlen. unfold decodeRow.
  destruct (5 <=? length (default [] (Data row))) eqn:H; [|done].
  apply Nat.leb_le in H. lia.
Qed.

Lemma decodeRows_short (row : Row) rows results :
  length (default [] (Data row)) < 5 ->
  decodeRows JSON_parse (row :: rows) results = decodeRows JSON_parse rows results.
Proof. intros Hlen. simpl. by rewrite decodeRow_short. Qed.

Lemma decodeRows_acc rows (results : list (TrainingExample double)) :
  decodeRows JSON_parse rows results
  = match decodeRows JSON_parse rows [] with
    | Ok decoded => Ok (results ++ decoded)
    | Err e => Err e
    end.
Proof.
  revert results. induction rows as [|row rest IH]; intros results; simpl.
  - by rewrite app_nil_r.
  - destruct (decodeRow JSON_parse row) as [[example|]|e]; [| apply IH | done].
    rewrite (IH (results ++ [example])), (IH [example]).
    destruct (decodeRows JSON_parse rest []); [| done].
    by rewrite <- app_assoc.
Qed.

Lemma decodeRows_results rows (results decoded : list (TrainingExample double)) :
  decodeRows JSON_parse rows [] = Ok decoded ->
  decodeRows JSON_parse rows results = Ok (results ++ decoded).
Proof. intros H. by rewrite decodeRows_acc, H. Qed.

(** The loop requests pages until a response carries no next-page token,
    and returns the records of each page in order; of every page, the
    first row is passed over. *)
Lemma getQueryResults_loop_pages (client : AthenaClient) pages :
  forall token results recordss fuel,
  serves client token pages ->
  Forall2 (fun page records => pageRecords JSON_parse page = Ok records)
          pages recordss ->
  length pages <= fuel ->
  getQueryResults_loop JSON_parse client fuel token results
  = Some (Ok (results ++ concat recordss)).
Proof.
  induction pages as [|page rest IH]; intros token results recordss fuel Hs Hrec Hfuel;
    [done|].
  destruct fuel as [|fuel]; [simpl in Hfuel; lia|].
  apply Forall2_cons_inv_l in Hrec as (records & recordss' & Hpage & Hrest & ->).
  destruct Hs as [Hclient Hnext]. simpl. rewrite Hclient.
  unfold pageRecords in Hpage.
  rewrite (decodeRows_results _ results records Hpage).
  destruct rest as [|page' rest'].
  - rewrite Hnext. apply Forall2_nil_inv_l in Hrest as ->.
    simpl. by rewrite app_nil_r.
  - destruct Hnext as [-> Hs'].
    rewrite (IH _ _ recordss' fuel Hs' Hrest); [| simpl in *; lia].
    simpl. by rewrite <- app_assoc.
Qed.

End RetrieverFacts.

(** C3 (code): on a result set of three records served in two pages, the
    second of which starts with a data row, [getQueryResults] ends normally
    with the records a1 and a3 only; the first row of the second page,
    record a2, is passed over like the header row of the first page. *)
Theorem C3_first_row_of_later_page_dropped :
  DataService.getQueryResults Samples.JSON_parse Samples.twoPages 2
  = Some (Ok [Samples.recordOf "a1"; Samples.recordOf "a3"])
  /\ DataService.decodeRow Samples.JSON_parse (Samples.dataRow "a2")
     = Ok (Some (Samples.recordOf "a2")).
Proof. split; vm_compute; reflexivity. Qed.

(** ** The distillation batcher *)

Section DistillationFacts.
Import DistillationService.
Context {double : Type}.
Variable JSON_parse : jsstring -> Result (JSON double).
Variable runtimeMessage : RuntimeError -> jsstring.
Variable this : DistillationService.
Variable client : BedrockRuntimeClient.

Abbreviation generate := (generateTeacherOutput JSON_parse runtimeMessage this client).
Abbreviation attempt := (teacherAttempt JSON_parse runtimeMessage this client).
Abbreviation distill := (distillExamples JSON_parse runtimeMessage this client).

Implicit Types (example : TrainingExample double).
Implicit Types (examples : list (TrainingExample double)).

Lemma generate_prompt n example :
  prompt (generate n example) = createStudentPrompt example.
Proof. unfold generateTeacherOutput. by destruct (attempt n example). Qed.

Lemma generate_completion n example :
  completion (generate n example)
  = match attempt n example with
    | Ok text => or_else text (title example)
    | Err _ => title example
    end.
Proof. unfold generateTeacherOutput. by destruct (attempt n example). Qed.

(** What the spread leaves under a key: the value of the source when it
    has the key, the value of the literal otherwise. *)
Lemma spread_lookup (source : option (JSON double)) target k :
  spread source target !! k
  = match source with
    | Some v => match ownProps v !! k with
                | Some x => Some x
                | None => target !! k
                end
    | None => target !! k
    end.
Proof.
  destruct source as [v|]; simpl; [|done].
  rewrite lookup_union. by destruct (ownProps v !! k), (target !! k).
Qed.

(** A response whose first content block has a string text yields that
    text, trimmed. *)
Lemma teacherText_content_text (props block : gmap jsstring (JSON double)) rest s :
  props !! js "content" = Some (JArray (JObject block :: rest)) ->
  block !! js "text" = Some (JString s) ->
  teacherText runtimeMessage (JObject props) = Ok (Some (trim s)).
Proof.
  intros Hc Ht. unfold teacherText, getNamed.
  rewrite Hc. cbn [nullish getFirst lookup list_lookup]. by rewrite Ht.
Qed.

(** The windows of the loop, put end to end, are the input. *)
Lemma batchResults_rest examples i :
  i < length examples ->
  batchResults JSON_parse runtimeMessage this client examples i
  ++ imap (fun j example => generate (i + Pos.to_nat (maxConcurrentRequests this) + j) example)
          (drop (i + Pos.to_nat (maxConcurrentRequests this)) examples)
  = imap (fun j example => generate (i + j) example) (drop i examples).
Proof.
  intros Hi. unfold batchResults, batchAt.
  set (m := Pos.to_nat (maxConcurrentRequests this)).
  transitivity (imap (fun j example => generate (i + j) example)
                     (take m (drop i examples) ++ drop m (drop i examples)));
    [| by rewrite take_drop].
  rewrite imap_app, drop_drop. f_equal.
  destruct (decide (m <= length (drop i examples))) as [Hm|Hm].
  - rewrite length_take, Nat.min_l by done.
    apply imap_ext. intros j x _. f_equal. lia.
  - rewrite (drop_ge examples (i + m)); [done|].
    rewrite length_drop in Hm. lia.
Qed.

Lemma distill_loop_spec examples :
  forall k i prompts,
  length examples - i <= k ->
  distill_loop JSON_parse runtimeMessage this client examples i prompts
  = prompts ++ imap (fun j example => generate (i + j) example) (drop i examples).
Proof.
  induction k as [|k IH]; intros i prompts Hk;
    rewrite distill_loop_equation_1;
    destruct (decide (i < length examples)) as [Hi|Hi]; simpl.
  - lia.
  - rewrite drop_ge by lia. by rewrite app_nil_r.
  - rewrite IH by (pose proof (Pos2Nat.is_pos (maxConcurrentRequests this)); lia).
    rewrite <- app_assoc. f_equal. by apply batchResults_rest.
  - rewrite drop_ge by lia. by rewrite app_nil_r.
Qed.

(** [distillExamples] returns the examples generated for the records, one
    per record and in their order. *)
Lemma distillExamples_imap examples :
  distill examples = imap generate examples.
Proof.
  unfold distillExamples.
  rewrite (distill_loop_spec examples (length examples)) by lia.
  simpl. rewrite drop_0. reflexivity.
Qed.

Lemma distillExamples_length examples :
  length (distill examples) = length examples.
Proof. by rewrite distillExamples_imap, length_imap. Qed.



(** C5: the prompt of the generated example is the student prompt of the
    record, built from its publication and the first 500 code units of its
    content around fixed text, whatever the teacher answered; two runs of
    the step on the same record, with any two clients, parsers and
    services, give the same prompt. *)
Theorem C5_student_prompt_independent_of_teacher example
    (JSON_parse' : jsstring -> Result (JSON double))
    (runtimeMessage' : RuntimeError -> jsstring)
    (this' : DistillationService) (client' : BedrockRuntimeClient) (n n' : nat) :
  prompt (generate n example)
  = prompt (generateTeacherOutput JSON_parse' runtimeMessage' this' client' n' example)
  /\ prompt (generate n example)
     = js "Generate a headline for the following article:

Article content:
" ++ take 500 (content example)
       ++ (if 500 <? length (content example) then js "..." else [])
       ++ js "

Publication: " ++ publication example ++ js "
Style requirements: Editorial quality, SEO-optimized, engaging".
Proof.
  split.
  - rewrite generate_prompt. unfold generateTeacherOutput.
    by destruct (teacherAttempt _ _ _ _ _ _).
  - rewrite generate_prompt. reflexivity.
Qed.

(** C10: whatever the teacher answered, a key that the record's metadata
    defines has, in the metadata of the generated example, the value the
    record gave it; this holds in particular for articleId, publication,
    publishedDate, originalTitle, teacherModel and teacherModelError, whose
    provenance values are therefore replaced. *)
Theorem C10_source_metadata_overrides_provenance n example source k v :
  metadata example = Some source ->
  ownProps source !! k = Some v ->
  exists md, pmetadata (generate n example) = Some md /\ md !! k = Some v.
Proof.
  intros Hsource Hk. unfold generateTeacherOutput.
  destruct (attempt n example); simpl; eexists; (split; [reflexivity|]);
    rewrite spread_lookup, Hsource, Hk; reflexivity.
Qed.

End DistillationFacts.

(** Three records in windows of two, the second call failing: three
    examples in input order, the second with the original title. *)
Example distillExamples_sample :
  completion <$>
    DistillationService.distillExamples Samples.headlineParser Samples.runtimeMessage
      Samples.service Samples.secondCallFails
      [Samples.article "a1" "one" ""; Samples.article "a2" "two" "";
       Samples.article "a3" "three" ""]
  = [js "Bridge funded"; js "two"; js "Bridge funded"].
Proof. vm_compute. reflexivity. Qed.


(** C10 at a concrete record: its metadata defines teacherModelError, the
    teacher call fails, and the example carries the record's value. *)
Lemma C10_witness :
  exists md,
    pmetadata (DistillationService.generateTeacherOutput Samples.JSON_parse
                 Samples.runtimeMessage Samples.service Samples.failingTeacher 0
                 Samples.annotatedRecord) = Some md
    /\ md !! js "teacherModelError" = Some (JString (js "from the source")).
Proof.
  apply (C10_source_metadata_overrides_provenance Samples.JSON_parse
           Samples.runtimeMessage Samples.service Samples.failingTeacher 0
           Samples.annotatedRecord
           (JObject {[ js "teacherModelError" := JString (js "from the source") ]})).
  - reflexivity.
  - reflexivity.
Defined.

(** ** The dataset writer *)

Section StringifyFacts.
Context {double : Type}.
Variable serializeNumber : double -> jsstring.
Hypothesis serializeNumber_line : forall d, 10%N ∉ serializeNumber d.

Local Ltac closed_line := refine (bool_decide_unpack _ _); vm_compute; exact I.

Lemma JSON_size_item (items : list (JSON double)) v :
  v ∈ items -> JSON_size v < JSON_size (JArray items).
Proof.
  intros Hin. cbn [JSON_size]. apply Nat.lt_succ_r.
  induction Hin as [x rest|x y rest Hin IH]; cbn [foldr]; lia.
Qed.

Lemma JSON_size_prop (props : gmap jsstring (JSON double)) k v :
  props !! k = Some v -> JSON_size v < JSON_size (JObject props).
Proof.
  intros Hk. cbn [JSON_size]. apply Nat.lt_succ_r.
  rewrite (map_fold_delete_L _ _ k v props); [lia | | done].
  intros. lia.
Qed.

Lemma hexDigit_not_newline n : hexDigit n <> 10%N.
Proof. unfold hexDigit. destruct (n <? 10)%N; lia. Qed.

Lemma unicodeEscape_line c : 10%N ∉ unicodeEscape c.
Proof.
  unfold unicodeEscape. cbn [js app].
  rewrite !not_elem_of_cons. repeat split;
    try discriminate; try (apply not_eq_sym, hexDigit_not_newline).
  apply not_elem_of_nil.
Qed.

Lemma quoteUnit_line c : 10%N ∉ quoteUnit c.
Proof.
  unfold quoteUnit.
  destruct (c =? 10)%N eqn:Hc; [destruct (c =? 8)%N, (c =? 9)%N; closed_line|].
  repeat match goal with
         | |- context [if ?b then _ else _] => destruct b
         end;
    try closed_line; try apply unicodeEscape_line.
  apply N.eqb_neq in Hc.
  apply not_elem_of_cons. split; [congruence | apply not_elem_of_nil].
Qed.

Lemma quoteUnits_line s : 10%N ∉ quoteUnits s.
Proof.
  assert (forall n s, length s <= n -> 10%N ∉ quoteUnits s) as H.
  { clear s. induction n as [|n IH]; intros [|c [|d rest]] Hlen; cbn [quoteUnits];
      try apply not_elem_of_nil; try (simpl in Hlen; lia); try apply quoteUnit_line.
    destruct (isHighSurrogate c && isLowSurrogate d) eqn:Hpair.
    - apply andb_true_iff in Hpair as [Hc Hd].
      rewrite !not_elem_of_cons. repeat split.
      + intros <-. discriminate.
      + intros <-. discriminate.
      + apply IH. simpl in Hlen. lia.
    - rewrite not_elem_of_app. split; [apply quoteUnit_line|].
      apply (IH (d :: rest)). simpl in Hlen |- *. lia. }
  by apply (H (length s)).
Qed.

Lemma quoteJSONString_line s : 10%N ∉ quoteJSONString s.
Proof.
  unfold quoteJSONString. rewrite !not_elem_of_app. repeat split.
  - closed_line.
  - apply quoteUnits_line.
  - closed_line.
Qed.

Lemma join_line sep (xs : list jsstring) :
  10%N ∉ sep -> Forall (fun x => 10%N ∉ x) xs -> 10%N ∉ join sep xs.
Proof.
  intros Hsep Hxs. induction Hxs as [|x rest Hx Hrest IH]; cbn [join].
  - apply not_elem_of_nil.
  - destruct rest as [|y rest']; [done|].
    rewrite !not_elem_of_app. auto.
Qed.

(** The serialization of a value holds no line feed. *)
Lemma JSON_stringify_line (v : JSON double) :
  10%N ∉ JSON_stringify serializeNumber v.
Proof.
  assert (forall n v, JSON_size v <= n -> 10%N ∉ JSON_stringify serializeNumber v) as H.
  { clear v. induction n as [|n IH]; intros v Hsize.
    { destruct v; simpl in Hsize; lia. }
    destruct v as [|[]|d|s|items|props]; cbn [JSON_stringify].
    - closed_line.
    - closed_line.
    - closed_line.
    - apply serializeNumber_line.
    - apply quoteJSONString_line.
    - rewrite !not_elem_of_app. split; [closed_line | split; [| closed_line]].
      apply join_line; [closed_line|].
      apply Forall_forall. intros x (v & -> & Hv)%list_elem_of_fmap.
      apply IH. apply JSON_size_item in Hv. lia.
    - rewrite !not_elem_of_app. split; [closed_line | split; [| closed_line]].
      apply join_line; [closed_line|].
      apply Forall_forall. intros x ([k text] & -> & Hkv)%list_elem_of_fmap.
      apply elem_of_map_to_list in Hkv.
      apply lookup_fmap_Some in Hkv as (v & <- & Hv).
      unfold serializeProperty. cbn [fst snd].
      rewrite !not_elem_of_app. repeat split.
      + apply quoteJSONString_line.
      + closed_line.
      + apply IH. apply JSON_size_prop in Hv. lia. }
  by apply (H (JSON_size v)).
Qed.

Lemma countMatches_app p (s t : jsstring) :
  countMatches p (s ++ t) = countMatches p s + countMatches p t.
Proof. unfold countMatches. by rewrite filter_app, length_app. Qed.

Lemma countMatches_line (s : jsstring) :
  10%N ∉ s -> countMatches (N.eqb 10) s = 0.
Proof.
  unfold countMatches. induction s as [|c rest IH]; [done|].
  rewrite not_elem_of_cons. intros [Hc Hrest].
  rewrite filter_cons_False; [by apply IH|].
  intros Heq%N.eqb_eq. done.
Qed.

(** Joining texts without line feeds by a line feed gives as many lines as
    there are texts. *)
Lemma join_lineCount (xs : list jsstring) :
  xs <> [] -> Forall (fun x => 10%N ∉ x) xs ->
  lineCount (join [10%N] xs) = length xs.
Proof.
  intros Hne Hxs. unfold lineCount.
  induction Hxs as [|x rest Hx Hrest IH]; [done|].
  destruct rest as [|y rest'].
  - cbn [join length]. by rewrite countMatches_line.
  - change (join [10%N] (x :: y :: rest')) with (x ++ [10%N] ++ join [10%N] (y :: rest')).
    rewrite !countMatches_app, (countMatches_line x) by done.
    specialize (IH ltac:(done)).
    change (countMatches (N.eqb 10) [10%N]) with 1.
    cbn [length] in IH |- *. lia.
Qed.

End StringifyFacts.

Section WriterFacts.
Import StorageService.
Context {double : Type}.
Variable serializeNumber : double -> jsstring.
Variable clock : nat -> Z.
Variable s3Client : PutObjectCommand -> Result unit.

Lemma jsonlContent_lineCount (prompts : list (PromptExample double)) :
  (forall d, 10%N ∉ serializeNumber d) ->
  prompts <> [] ->
  lineCount (jsonlContent serializeNumber prompts) = length prompts.
Proof.
  intros Hnum Hne. unfold jsonlContent.
  change (js "
") with [10%N].
  rewrite join_lineCount.
  - apply length_map.
  - by destruct prompts.
  - apply Forall_forall. intros x (p & -> & _)%list_elem_of_fmap.
    by apply JSON_stringify_line.
Qed.

(** C8: for a non-empty list of examples and a store that accepts the
    write, [saveTrainingDataset] sends one object whose body is the
    serializations of the examples joined by line feeds, with as many
    lines as examples, under the key
    datasets/<publicationId or all>/<timestamp>-<runId>/training-data.jsonl
    of the configured bucket, and returns a descriptor with the number of
    examples, the version <timestamp>-<runId> and the s3 URI of that key;
    the timestamp is the time read on entry. *)
Theorem C8_saveTrainingDataset_descriptor
    (prompts : list (PromptExample double)) (config : TrainingConfig) (p : Process) :
  (forall d, 10%N ∉ serializeNumber d) ->
  (forall command, s3Client command = Ok tt) ->
  prompts <> [] ->
  exists command result p',
    saveTrainingDataset serializeNumber clock s3Client prompts config p
    = (p', Returned result)
    /\ events p' = events p ++ [S3Send command]
    /\ Bucket command = trainingDataBucket config
    /\ Key command
       = datasetKey (publicationId config)
           (versionToken (clock (clockReads p)) (trainingRunId config))
    /\ Body command
       = join [10%N] (map (fun x => JSON_stringify serializeNumber
                                      (PromptExample_toJSON x)) prompts)
    /\ lineCount (Body command) = length prompts
    /\ promptCount result = length prompts
    /\ datasetVersion result
       = versionToken (clock (clockReads p)) (trainingRunId config)
    /\ s3Location result = s3Uri (trainingDataBucket config) (Key command).
Proof.
  intros Hnum Hstore Hne.
  unfold saveTrainingDataset, bind, DateNow, emit, await, ret.
  cbn [clockReads events]. rewrite Hstore. cbn [clockReads events].
  eexists _, _, _. split; [reflexivity|].
  cbn [events Bucket Key Body promptCount datasetVersion s3Location].
  repeat split. by apply jsonlContent_lineCount.
Qed.

End WriterFacts.

(** C8 at a concrete input: two examples written at time 1 for the run
    run-1. *)
Lemma C8_witness :
  exists command result p',
    StorageService.saveTrainingDataset Samples.serializeNumber (Samples.clockAt 1)
      Samples.acceptingStore Samples.twoExamples (Samples.config "run-1") start
    = (p', Returned result)
    /\ events p' = events start ++ [S3Send command]
    /\ Bucket command = trainingDataBucket (Samples.config "run-1")
    /\ Key command
       = StorageService.datasetKey (publicationId (Samples.config "run-1"))
           (StorageService.versionToken (Samples.clockAt 1 (clockReads start))
              (trainingRunId (Samples.config "run-1")))
    /\ Body command
       = join [10%N] (map (fun x => JSON_stringify Samples.serializeNumber
                                      (PromptExample_toJSON x)) Samples.twoExamples)
    /\ lineCount (Body command) = length Samples.twoExamples
    /\ promptCount result = length Samples.twoExamples
    /\ datasetVersion result
       = StorageService.versionToken (Samples.clockAt 1 (clockReads start))
           (trainingRunId (Samples.config "run-1"))
    /\ s3Location result
       = StorageService.s3Uri (trainingDataBucket (Samples.config "run-1")) (Key command).
Proof.
  apply (C8_saveTrainingDataset_descriptor Samples.serializeNumber (Samples.clockAt 1)
           Samples.acceptingStore Samples.twoExamples (Samples.config "run-1") start).
  - intros [].
  - reflexivity.
  - vm_compute. discriminate.
Defined.

(** ** The training job submitter *)

Section SubmitterFacts.
Import BedrockService.

Lemma js_inj (s t : string) : js s = js t -> s = t.
Proof.
  revert t. induction s as [|a s IH]; intros [|b t]; simpl; try done.
  intros [= Hab Hst]. f_equal.
  - by rewrite <- (ascii_N_embedding a), Hab, ascii_N_embedding.
  - by apply IH.
Qed.

Lemma string_of_int_inj (d d' : Decimal.int) :
  d <> Decimal.Pos Decimal.Nil -> d <> Decimal.Neg Decimal.Nil ->
  d' <> Decimal.Pos Decimal.Nil -> d' <> Decimal.Neg Decimal.Nil ->
  NilZero.string_of_int d = NilZero.string_of_int d' -> d = d'.
Proof.
  intros H1 H2 H1' H2' Heq.
  pose proof (NilZero.isi d H1 H2) as Hd.
  pose proof (NilZero.isi d' H1' H2') as Hd'.
  rewrite Heq in Hd. congruence.
Qed.

Lemma to_int_not_nil (z : Z) :
  Z.to_int z <> Decimal.Pos Decimal.Nil /\ Z.to_int z <> Decimal.Neg Decimal.Nil.
Proof.
  destruct z as [|q|q]; simpl; split; try discriminate;
    intros [= H]; by apply DecimalPos.Unsigned.to_uint_nonnil in H.
Qed.

(** The decimal rendering of an integer determines it. *)
Lemma Z_toString_inj (z z' : Z) : Z_toString z = Z_toString z' -> z = z'.
Proof.
  unfold Z_toString. intros H%js_inj.
  destruct (to_int_not_nil z), (to_int_not_nil z').
  apply string_of_int_inj in H; try done.
  by rewrite <- (DecimalZ.of_to z), H, DecimalZ.of_to.
Qed.

Lemma jobNameOf_inj (config1 config2 : TrainingConfig) (stage : jsstring) :
  jobNameOf config1 stage = jobNameOf config2 stage
  <-> trainingRunId config1 = trainingRunId config2.
Proof.
  unfold jobNameOf. split; [| by intros ->].
  intros H. apply app_inv_head in H. by apply app_inv_tail in H.
Qed.

Lemma customModelNameOf_inj (config1 config2 : TrainingConfig) stage (t1 t2 : Z) :
  or_else (publicationId config1) (js "all") = or_else (publicationId config2) (js "all") ->
  customModelNameOf config1 stage t1 = customModelNameOf config2 stage t2
  <-> t1 = t2.
Proof.
  intros Hpub. unfold customModelNameOf. rewrite Hpub.
  split; [| by intros ->].
  intros H. do 5 apply app_inv_head in H. by apply Z_toString_inj.
Qed.

(** The command that [createModelCustomizationJob] sends, whatever the
    service answers. *)
Lemma createModelCustomizationJob_sends clock bedrockClient STAGE ROLE
    (config : TrainingConfig) result bedrockConfig (p : Process) :
  exists command,
    submittedJobs (createModelCustomizationJob clock bedrockClient STAGE ROLE
                     config result bedrockConfig p).1
    = submittedJobs p ++ [command]
    /\ jobName command = jobNameOf config (or_else STAGE (js "dev"))
    /\ customModelName command
       = customModelNameOf config (or_else STAGE (js "dev")) (clock (clockReads p)).
Proof.
  unfold createModelCustomizationJob, bind, tryCatch, DateNow, emit, await, ret, throw.
  cbn [clockReads events].
  unfold submittedJobs.
  eexists. split.
  - destruct (bedrockClient _); cbn [fst events]; rewrite omap_app; reflexivity.
  - split; reflexivity.
Qed.

(** C9 (amended): the job name sent is training-<runId>-<stage>, and the
    model name sent is custom-model-<publicationId or all>-<stage>-<time>
    with the time read when the command is built. So for two submissions
    in the same stage, the job names differ exactly when the run ids
    differ (the submission time plays no part), and, when the publication
    is the same, the model names differ exactly when the times read differ
    (the run id plays no part). *)
Theorem C9_names_of_two_submissions
    clock1 clock2 client1 client2 STAGE ROLE1 ROLE2
    (config1 config2 : TrainingConfig) result1 result2 bedrockConfig1 bedrockConfig2
    (p1 p2 : Process) :
  exists command1 command2,
    submittedJobs (createModelCustomizationJob clock1 client1 STAGE ROLE1
                     config1 result1 bedrockConfig1 p1).1
    = submittedJobs p1 ++ [command1]
    /\ submittedJobs (createModelCustomizationJob clock2 client2 STAGE ROLE2
                        config2 result2 bedrockConfig2 p2).1
       = submittedJobs p2 ++ [command2]
    /\ jobName command1
       = js "training-" ++ trainingRunId config1 ++ js "-" ++ or_else STAGE (js "dev")
    /\ customModelName command1
       = js "custom-model-" ++ or_else (publicationId config1) (js "all") ++ js "-"
         ++ or_else STAGE (js "dev") ++ js "-" ++ Z_toString (clock1 (clockReads p1))
    /\ (jobName command1 = jobName command2
        <-> trainingRunId config1 = trainingRunId config2)
    /\ (or_else (publicationId config1) (js "all")
        = or_else (publicationId config2) (js "all") ->
        (customModelName command1 = customModelName command2
         <-> clock1 (clockReads p1) = clock2 (clockReads p2))).
Proof.
  destruct (createModelCustomizationJob_sends clock1 client1 STAGE ROLE1 config1
              result1 bedrockConfig1 p1) as (c1 & Hs1 & Hj1 & Hm1).
  destruct (createModelCustomizationJob_sends clock2 client2 STAGE ROLE2 config2
              result2 bedrockConfig2 p2) as (c2 & Hs2 & Hj2 & Hm2).
  exists c1, c2. rewrite Hj1, Hj2, Hm1, Hm2.
  repeat split; try done.
  - by apply jobNameOf_inj.
  - by apply jobNameOf_inj.
  - by apply customModelNameOf_inj.
  - by apply customModelNameOf_inj.
Qed.

End SubmitterFacts.

(** C9, as stated, fails: two submissions of the run run-1, made at
    different times, send the same job name; two submissions made at the
    same time for the runs run-1 and run-2 send the same model name. *)
Lemma C9_counterexample :
  (Samples.submission 1000 "run-1" <> Samples.submission 2000 "run-1"
   /\ jobName <$> submittedJobs (Samples.submission 1000 "run-1")
      = jobName <$> submittedJobs (Samples.submission 2000 "run-1"))
  /\ (Samples.submission 1000 "run-1" <> Samples.submission 1000 "run-2"
      /\ customModelName <$> submittedJobs (Samples.submission 1000 "run-1")
         = customModelName <$> submittedJobs (Samples.submission 1000 "run-2")).
Proof.
  split; (split; [vm_compute; discriminate | vm_compute; reflexivity]).
Qed.

(** ** The data job *)

Section DataJobFacts.
Import Main.
Context {double : Type}.
Variable serializeNumber : double -> jsstring.
Variable JSON_parse : jsstring -> Result (JSON double).
Variable runtimeMessage : DistillationService.RuntimeError -> jsstring.
Variable convert : jsstring -> jsstring.
Variable env : Env.
Variable world : World (double := double).

Abbreviation tryBlock' :=
  (tryBlock serializeNumber JSON_parse runtimeMessage convert env world).

(** The records that pass the cleaning stage, and the examples generated
    from them, as the [try] block computes them. *)
Abbreviation cleanedOf raw :=
  ((DataCleaner.cleanExamples convert DataCleaner.new raw).2).
Abbreviation promptsOf raw :=
  (DistillationService.distillExamples JSON_parse runtimeMessage
     (DistillationService.new
        {| DistillationService.cfgTeacherModelId :=
             or_else (TEACHER_MODEL_ID env)
                     (js "anthropic.claude-3-5-sonnet-20241022-v2:0");
           DistillationService.cfgRegion := or_else (AWS_REGION env) (js "eu-west-1");
           DistillationService.cfgMaxConcurrentRequests := Some 5%N |})
     (teacher world) (cleanedOf raw)).

(** Distillation returns one example per cleaned record, so the check of
    step 4 repeats the check made after cleaning. *)
Lemma promptsOf_length raw : length (promptsOf raw) = length (cleanedOf raw).
Proof. apply distillExamples_length. Qed.

(** A failed query ends the job with exit code 1 before any stage runs. *)
Lemma tryBlock_query_failed (config : TrainingConfig) (p : Process) message :
  queryTrainingData world config = Err message ->
  tryBlock' config p
  = ({| clockReads := clockReads p; events := events p ++ [QueryTrainingData] |},
     Exited 1%Z).
Proof.
  intros Hq. unfold tryBlock, tryCatch, pipeline, bind, emit, await, throw, exit.
  by rewrite Hq.
Qed.

(** C2: with a configured minimum [m], when the query returned [raw]: if
    fewer than [m] records were retrieved, or fewer than [m] remain after
    cleaning, or fewer than [m] examples were generated, the [try] block
    ends the process with exit code 1 and has sent nothing to the object
    store nor to the training service; in the first case the only event is
    the query (cleaning was not invoked), in the second the query and the
    cleaning (distillation was not invoked), in the third the query, the
    cleaning and the distillation (nothing was written). *)
Theorem C2_minimum_count_enforced
    (config : TrainingConfig) (p : Process) (m : Z)
    (raw : list (TrainingExample double)) :
  minPromptCount config = Int m ->
  queryTrainingData world config = Ok raw ->
  (Z.of_nat (length raw) < m
   \/ Z.of_nat (length (cleanedOf raw)) < m
   \/ Z.of_nat (length (promptsOf raw)) < m)%Z ->
  exists p',
    tryBlock' config p = (p', Exited 1%Z)
    /\ storedObjects p' = storedObjects p
    /\ submittedJobs p' = submittedJobs p
    /\ ((Z.of_nat (length raw) < m)%Z ->
        events p' = events p ++ [QueryTrainingData])
    /\ ((m <= Z.of_nat (length raw))%Z ->
        (Z.of_nat (length (cleanedOf raw)) < m)%Z ->
        events p' = events p ++ [QueryTrainingData; CleanExamples])
    /\ ((m <= Z.of_nat (length raw))%Z ->
        (m <= Z.of_nat (length (cleanedOf raw)))%Z ->
        (Z.of_nat (length (promptsOf raw)) < m)%Z ->
        events p' = events p ++ [QueryTrainingData; CleanExamples; DistillExamples]).
Proof.
  intros Hmin Hq Hlow.
  unfold tryBlock, tryCatch, pipeline, bind, emit, await, throw, exit, ret.
  rewrite Hq, Hmin. cbn [length_lt clockReads events].
  destruct (Z.of_nat (length raw) <? m)%Z eqn:Hraw.
  { apply Z.ltb_lt in Hraw. eexists. split; [reflexivity|].
    unfold storedObjects, submittedJobs. cbn [events].
    rewrite !omap_app, !app_nil_r. repeat split; try done; lia. }
  apply Z.ltb_ge in Hraw.
  destruct (Z.of_nat (length (cleanedOf raw)) <? m)%Z eqn:Hclean.
  { apply Z.ltb_lt in Hclean. eexists. split; [reflexivity|].
    unfold storedObjects, submittedJobs. cbn [events].
    rewrite <- !app_assoc, !omap_app, !app_nil_r.
    repeat split; try done; lia. }
  apply Z.ltb_ge in Hclean.
  destruct (Z.of_nat (length (promptsOf raw)) <? m)%Z eqn:Hprompts.
  { apply Z.ltb_lt in Hprompts. eexists. split; [reflexivity|].
    unfold storedObjects, submittedJobs. cbn [events].
    rewrite <- !app_assoc, !omap_app, !app_nil_r.
    repeat split; try done; lia. }
  apply Z.ltb_ge in Hprompts. lia.
Qed.



End DataJobFacts.

(** C2 at a concrete run: one record retrieved against a minimum of 2,
    the job exits with code 1 after the query alone. *)
Lemma C2_witness :
  exists p',
    Main.tryBlock Samples.serializeNumber Samples.JSON_parse Samples.runtimeMessage
      Samples.convert Samples.env (Samples.world [Samples.recordOf "a1"])
      (Samples.config "run-1") start
    = (p', Exited 1%Z)
    /\ events p' = [QueryTrainingData]
    /\ storedObjects p' = [] /\ submittedJobs p' = [].
Proof.
  destruct (C2_minimum_count_enforced Samples.serializeNumber Samples.JSON_parse
              Samples.runtimeMessage Samples.convert Samples.env
              (Samples.world [Samples.recordOf "a1"])
              (Samples.config "run-1") start 2 [Samples.recordOf "a1"])
    as (p' & Hrun & Hstored & Hjobs & Hevents & _).
  - reflexivity.
  - reflexivity.
  - left. simpl. lia.
  - exists p'. repeat split; try assumption.
    apply Hevents. simpl. lia.
Defined.

(** Two records that do not survive cleaning: the job exits with code 1
    after the query and the cleaning. *)
Example program_too_few_after_cleaning :
  let run := Main.program Samples.serializeNumber Samples.JSON_parse
               Samples.runtimeMessage Samples.convert Samples.parseInt Samples.env
               (Samples.world [Samples.recordOf "a1"; Samples.recordOf "a2"]) in
  run.2 = Exited 1%Z /\ events run.1 = [QueryTrainingData; CleanExamples].
Proof. vm_compute. split; reflexivity. Qed.

(** Two good records: the dataset is written, the job is submitted and
    the process exits with code 0. *)
Example program_succeeds :
  let run := Main.program Samples.serializeNumber Samples.JSON_parse
               Samples.runtimeMessage Samples.convert Samples.parseInt Samples.env
               (Samples.world [Samples.longRecord "a1"; Samples.longRecord "a2"]) in
  run.2 = Exited 0%Z
  /\ Key <$> storedObjects run.1 = [js "datasets/all/1-run-1/training-data.jsonl"]
  /\ jobName <$> submittedJobs run.1 = [js "training-run-1-dev"]
  /\ customModelName <$> submittedJobs run.1 = [js "custom-model-all-dev-1"].
Proof. vm_compute. repeat split; reflexivity. Qed.

(* ===================================================================== *)
(** * Part III: further properties of the code *)
(* ===================================================================== *)

(** ** The orchestrator as a whole *)

Section OrchestratorRuns.
Import Orchestrator.
Variable w : World.









Lemma step_justified c c' : justified w c -> step w c = Some c' -> justified w c'.
Proof.
  destruct c as [s d]. unfold justified. cbn [fst snd].
  destruct s; cbn [step definition runTask choose evalCondition];
    intros Hinv [= <-]; cbn [fst snd taskSucceeded trainingStatus pollsDone]; try done.
  - case_bool_decide as Hb; cbv beta iota; [congruence|].
    destruct (ecsTaskSucceeded w), (taskSucceeded d); congruence.
  - split; [done|]. exists (pollsDone d). split; [lia | done].
  - destruct Hinv as [Hok (k & Hk & Hstatus)].
    case_bool_decide as Hcompleted; [| case_bool_decide as Hfailed];
      cbv beta iota; [| | done].
    + split; [done|]. exists k. split; [done|]. rewrite <- Hstatus. exact Hcompleted.
    + split; [done|]. exists k. split; [done|]. rewrite <- Hstatus. exact Hfailed.
Qed.

Lemma run_justified n c : justified w c -> justified w (run w n c).
Proof.
  revert c. induction n as [|n IH]; intros c Hinv; simpl; [done|].
  destruct (step w c) as [c'|] eqn:Hstep; [|done].
  apply IH. by eapply step_justified.
Qed.

(** X4: whatever the number of transitions, the machine is in
    TrainingSucceeded only if the data job succeeded and some poll made so
    far answered COMPLETED, in the failure notification or in
    TrainingFailed only if some poll made so far answered FAILED, and in
    the ECS failure notification or in TaskFailed only if the data job
    failed. *)
Theorem orchestrator_terminal_states_justified n d :
  let c := run w n (startAt, d) in
  (c.1 = TrainingSucceeded ->
     ecsTaskSucceeded w = true
     /\ exists k, k < pollsDone c.2 /\ getModelCustomizationJob w k = js "COMPLETED")
  /\ (c.1 = NotifyFailure \/ c.1 = TrainingFailed ->
        ecsTaskSucceeded w = true
        /\ exists k, k < pollsDone c.2 /\ getModelCustomizationJob w k = js "FAILED")
  /\ (c.1 = NotifyEcsFailure \/ c.1 = TaskFailed -> ecsTaskSucceeded w = false).
Proof.
  intros c. pose proof (run_justified n (startAt, d) I) as Hinv.
  fold c in Hinv. unfold justified in Hinv.
  split; [| split].
  - intros Hs. rewrite Hs in Hinv. exact Hinv.
  - intros [Hs|Hs]; rewrite Hs in Hinv; exact Hinv.
  - intros [Hs|Hs]; rewrite Hs in Hinv; exact Hinv.
Qed.

End OrchestratorRuns.




(** ** The record retriever as a whole *)

Section RetrieverRuns.
Import DataService.
Context {double : Type}.
Variable JSON_parse : jsstring -> Result (JSON double).

Lemma decodeRows_length rows (results decoded : list (TrainingExample double)) :
  decodeRows JSON_parse rows results = Ok decoded ->
  length decoded <= length results + length rows.
Proof.
  revert results. induction rows as [|row rest IH]; intros results; simpl.
  - intros [= <-]. lia.
  - destruct (decodeRow JSON_parse row) as [[example|]|e]; [| | done].
    + intros H%IH. rewrite length_app in H. simpl in H. lia.
    + intros H%IH. lia.
Qed.

(** X5: when the backend serves a chain of pages, each but the last with
    a next-page token, and the rows past the first of each page decode,
    [getQueryResults] given enough fuel returns the records of the pages
    in page order; every page, not only the first, contributes at most
    its number of rows minus one. *)
Theorem getQueryResults_returns_pages (client : AthenaClient) pages recordss fuel :
  serves client None pages ->
  Forall2 (fun page records => pageRecords JSON_parse page = Ok records)
          pages recordss ->
  length pages <= fuel ->
  getQueryResults JSON_parse client fuel = Some (Ok (concat recordss))
  /\ Forall2 (fun page records =>
                length records <= length (default [] (Rows page)) - 1)
             pages recordss.
Proof.
  intros Hserves Hrec Hfuel. split.
  - unfold getQueryResults.
    by rewrite (getQueryResults_loop_pages JSON_parse client pages None [] recordss fuel).
  - eapply Forall2_impl; [exact Hrec|].
    intros page records H. unfold pageRecords in H.
    apply decodeRows_length in H. rewrite length_drop in H. simpl in H. lia.
Qed.

Lemma decodeRows_fails before row after (results : list (TrainingExample double)) e :
  Forall (fun r => exists x, decodeRow JSON_parse r = Ok x) before ->
  decodeRow JSON_parse row = Err e ->
  decodeRows JSON_parse (before ++ row :: after) results = Err e.
Proof.
  intros Hbefore Hrow. revert results.
  induction Hbefore as [|r before' [x Hx] _ IH]; intros results; simpl.
  - by rewrite Hrow.
  - rewrite Hx. destruct x; apply IH.
Qed.

(** X6: a data row with a sixth column whose text [JSON.parse] rejects
    makes the whole fetch fail with the parser's error, whatever the rows
    before and after it hold and however many records were decoded
    already. *)
Theorem getQueryResults_malformed_metadata_fails
    (client : AthenaClient) page header before row after data d e fuel :
  client None = Ok page ->
  Rows page = Some (header :: before ++ row :: after) ->
  Forall (fun r => exists x, decodeRow JSON_parse r = Ok x) before ->
  Data row = Some data ->
  data !! 5 = Some d ->
  JSON_parse (or_else (Some (extractValue d)) (js "{}")) = Err e ->
  getQueryResults JSON_parse client (S fuel) = Some (Err e).
Proof.
  intros Hclient Hrows Hbefore Hdata Hd Hparse.
  unfold getQueryResults. cbn [getQueryResults_loop].
  rewrite Hclient, Hrows.
  change (drop 1 (default [] (Some (header :: before ++ row :: after))))
    with (before ++ row :: after).
  rewrite (decodeRows_fails before row after [] e); [done | done |].
  unfold decodeRow. rewrite Hdata.
  change (default [] (Some data)) with data.
  assert (5 < length data) as Hlen by (by apply lookup_lt_Some in Hd).
  destruct (5 <=? length data) eqn:Hle; [| apply Nat.leb_gt in Hle; lia].
  by rewrite Hd, Hparse.
Qed.

(** X7: when the request for a later page fails, the fetch fails with
    that error: the records decoded from the pages received before are
    not returned. *)
Theorem getQueryResults_later_page_fails (client : AthenaClient) pages e fuel :
  servesThenFails client None pages e ->
  Forall (fun page => exists records, pageRecords JSON_parse page = Ok records) pages ->
  length pages < fuel ->
  getQueryResults JSON_parse client fuel = Some (Err e).
Proof.
  unfold getQueryResults. generalize (@nil (TrainingExample double)) as results.
  generalize (@None jsstring) as token. revert fuel.
  induction pages as [|page rest IH]; intros fuel token results Hs Hrec Hfuel;
    (destruct fuel as [|fuel]; [simpl in Hfuel; lia|]); cbn [getQueryResults_loop].
  - simpl in Hs. by rewrite Hs.
  - destruct Hs as (Hclient & Htoken & Hrest).
    apply Forall_cons in Hrec as [[records Hpage] Hrec].
    rewrite Hclient. unfold pageRecords in Hpage.
    rewrite (decodeRows_results JSON_parse _ results records Hpage), Htoken.
    apply IH; [done | done | simpl in Hfuel; lia].
Qed.

(** X8: the loop has no bound of its own: against a backend that answers
    every request with a decodable page carrying a next-page token, no
    number of requests ends it. *)
Theorem getQueryResults_endless_tokens (client : AthenaClient) fuel :
  (forall token, exists page records,
      client token = Ok page
      /\ truthy_opt (NextToken page) = true
      /\ pageRecords JSON_parse page = Ok records) ->
  getQueryResults JSON_parse client fuel = None.
Proof.
  intros Hclient. unfold getQueryResults.
  generalize (@nil (TrainingExample double)) as results.
  generalize (@None jsstring) as token.
  induction fuel as [|fuel IH]; intros token results; cbn [getQueryResults_loop]; [done|].
  destruct (Hclient token) as (page & records & Hpage & Htoken & Hrec).
  rewrite Hpage. unfold pageRecords in Hrec.
  rewrite (decodeRows_results JSON_parse _ results records Hrec), Htoken.
  apply IH.
Qed.

End RetrieverRuns.

(** X5 at a concrete backend: three records served in two pages. *)
Lemma getQueryResults_returns_pages_witness :
  DataService.getQueryResults Samples.JSON_parse Samples.twoPages 2
  = Some (Ok (concat [[Samples.recordOf "a1"]; [Samples.recordOf "a3"]]))
  /\ Forall2 (fun page records =>
                length records <= length (default [] (DataService.Rows page)) - 1)
             [Samples.page1; Samples.page2]
             [[Samples.recordOf "a1"]; [Samples.recordOf "a3"]].
Proof.
  apply (getQueryResults_returns_pages Samples.JSON_parse Samples.twoPages
           [Samples.page1; Samples.page2]
           [[Samples.recordOf "a1"]; [Samples.recordOf "a3"]] 2).
  - repeat split; reflexivity.
  - repeat constructor; vm_compute; reflexivity.
  - simpl. lia.
Defined.

(** X6 at a concrete page: the metadata of the second data row is not
    JSON. *)
Lemma getQueryResults_malformed_metadata_fails_witness :
  DataService.getQueryResults Samples.JSON_parse
    (fun _ => Ok Samples.badMetadataPage) 1
  = Some (Err (js "Unexpected token")).
Proof.
  apply (getQueryResults_malformed_metadata_fails Samples.JSON_parse
           (fun _ => Ok Samples.badMetadataPage) Samples.badMetadataPage
           Samples.headerRow [Samples.dataRow "a1"]
           (Samples.rowOf ["a2"; "A headline"; "Some body text"; "gazette";
                           "2024-05-01"; "{not json"]%string)
           [Samples.dataRow "a3"]
           (map (fun c => {| DataService.VarCharValue := Some (js c) |})
                ["a2"; "A headline"; "Some body text"; "gazette";
                 "2024-05-01"; "{not json"]%string)
           {| DataService.VarCharValue := Some (js "{not json") |}
           (js "Unexpected token") 0).
  - reflexivity.
  - reflexivity.
  - repeat constructor. eexists. vm_compute. reflexivity.
  - reflexivity.
  - reflexivity.
  - vm_compute. reflexivity.
Defined.

(** X7 at a concrete backend: the second request is throttled. *)
Lemma getQueryResults_later_page_fails_witness :
  DataService.getQueryResults Samples.JSON_parse Samples.failsOnSecondPage 2
  = Some (Err (js "ThrottlingException")).
Proof.
  apply (getQueryResults_later_page_fails Samples.JSON_parse
           Samples.failsOnSecondPage [Samples.page1] (js "ThrottlingException") 2).
  - repeat split; reflexivity.
  - repeat constructor. eexists. vm_compute. reflexivity.
  - simpl. lia.
Defined.

(** X8 at a concrete backend: every answer carries a token. *)
Lemma getQueryResults_endless_tokens_witness :
  DataService.getQueryResults Samples.JSON_parse Samples.endlessPages 1000 = None.
Proof.
  apply (getQueryResults_endless_tokens Samples.JSON_parse Samples.endlessPages 1000).
  intros token. exists Samples.page1, [Samples.recordOf "a1"].
  repeat split; vm_compute; reflexivity.
Defined.

(** ** The cleaning pipeline as a whole *)

Section CleanerRuns.
Import DataCleaner.
Context {double : Type}.
Variable convert : jsstring -> jsstring.
Implicit Types (example e : TrainingExample double).
Implicit Types (examples : list (TrainingExample double)).

(** The first occurrence of white space or of its absence at the head. *)
Lemma trimStart_head (s : jsstring) :
  trimStart s = [] \/ exists c rest, trimStart s = c :: rest /\ isWhiteSpace c = false.
Proof.
  induction s as [|c s IH]; simpl; [by left|].
  destruct (isWhiteSpace c) eqn:Hc; [done|]. right. by exists c, s.
Qed.

Lemma trimStart_idemp (s : jsstring) : trimStart (trimStart s) = trimStart s.
Proof.
  destruct (trimStart_head s) as [-> | (c & rest & -> & Hc)]; [done|].
  simpl. by rewrite Hc.
Qed.

Lemma trimStart_snoc (l : jsstring) c :
  isWhiteSpace c = false -> exists l', trimStart (l ++ [c]) = l' ++ [c].
Proof.
  intros Hc. induction l as [|y l IH]; simpl.
  - rewrite Hc. by exists [].
  - destruct (isWhiteSpace y); [done|]. by exists (y :: l).
Qed.

(** Trimming the end keeps the head of a text that does not start with
    white space. *)
Lemma trimEnd_keeps_head c (s : jsstring) :
  isWhiteSpace c = false -> exists rest, trimEnd (c :: s) = c :: rest.
Proof.
  intros Hc. unfold trimEnd. simpl rev.
  destruct (trimStart_snoc (rev s) c Hc) as [l' ->].
  rewrite rev_app_distr. simpl. eauto.
Qed.

(** [trim] leaves no white space at either end, so trimming again changes
    nothing. *)
Lemma trim_idemp (s : jsstring) : trim (trim s) = trim s.
Proof.
  unfold trim.
  assert (trimStart (trimEnd (trimStart s)) = trimEnd (trimStart s)) as ->.
  { destruct (trimStart_head s) as [-> | (c & rest & -> & Hc)]; [done|].
    destruct (trimEnd_keeps_head c rest Hc) as [rest' ->]. simpl. by rewrite Hc. }
  unfold trimEnd at 1 2. by rewrite rev_involutive, trimStart_idemp.
Qed.

Lemma cleanExamples_stages (this : DataCleaner) examples :
  (cleanExamples convert this examples).2
  = (validateEntitiesAndQuotes
       (filterDuplicates this (stripHtml convert (removeNulls examples))).2).2.
Proof.
  unfold cleanExamples.
  destruct (filterDuplicates this _) as [this' cleaned]. cbn [snd].
  by destruct (validateEntitiesAndQuotes cleaned).
Qed.

Lemma filterDuplicates_kept (this : DataCleaner) examples :
  (filterDuplicates this examples).2 = (filterDuplicates_loop examples ∅ []).2.
Proof.
  unfold filterDuplicates. by destruct (filterDuplicates_loop examples ∅ []).
Qed.

Lemma filterDuplicates_loop_seen examples (seen : gset jsstring)
    (unique : list (TrainingExample double)) :
  (filterDuplicates_loop examples seen unique).1
  = list_to_set (articleId <$> examples) ∪ seen.
Proof.
  revert seen unique. induction examples as [|e rest IH]; intros seen unique; simpl.
  - by rewrite (left_id_L ∅ (∪)).
  - case_bool_decide as Hin; rewrite IH; apply set_eq; intros x;
      rewrite !elem_of_union, ?elem_of_singleton; [| tauto].
    split; [tauto|]. intros [[->|?]|?]; tauto.
Qed.

(** X9: [filterDuplicates] leaves in the instance exactly the set of the
    article ids of its input, whatever the instance held before, and
    returns an input without repeated ids unchanged. *)
Theorem filterDuplicates_seen_and_identity (this : DataCleaner) examples :
  seenArticleIds (filterDuplicates this examples).1
  = list_to_set (articleId <$> examples)
  /\ (NoDup (articleId <$> examples) -> (filterDuplicates this examples).2 = examples).
Proof.
  split.
  - unfold filterDuplicates.
    pose proof (filterDuplicates_loop_seen examples ∅ []) as H.
    destruct (filterDuplicates_loop examples ∅ []) as [seen unique].
    cbn [fst seenArticleIds] in *. rewrite H. by rewrite (right_id_L ∅ (∪)).
  - rewrite filterDuplicates_kept.
    assert (forall seen,
              (forall e, e ∈ examples -> articleId e ∉ seen) ->
              NoDup (articleId <$> examples) ->
              (filterDuplicates_loop examples seen []).2 = examples) as H.
    { induction examples as [|x rest IH]; intros seen Hseen Hnodup; [done|].
      rewrite kept_cons. rewrite fmap_cons in Hnodup.
      apply NoDup_cons in Hnodup as [Hx Hrest].
      rewrite bool_decide_eq_false_2 by (apply Hseen; apply elem_of_cons; by left).
      f_equal. apply IH; [| done].
      intros e He. rewrite elem_of_union, elem_of_singleton.
      intros [Heq | Hin].
      - apply Hx. rewrite <- Heq. apply list_elem_of_fmap. eauto.
      - eapply Hseen; [| exact Hin]. apply elem_of_cons. by right. }
    apply H. intros e _. apply not_elem_of_empty.
Qed.

(** X10: the warnings of [validateEntitiesAndQuotes] are, in input order,
    one per example with an odd number of quotation marks in title and
    content, whether the example is kept or dropped. *)
Theorem validateEntitiesAndQuotes_warnings_exact examples :
  (validateEntitiesAndQuotes examples).1
  = unbalancedQuotesWarning
    <$> filter (fun e => quoteCount e mod 2 <> 0) examples.
Proof.
  induction examples as [|x rest IH]; [done|].
  simpl. pose proof (validateExample_warnings x) as Hw.
  destruct (validateExample x) as [w keep].
  destruct (validateEntitiesAndQuotes rest) as [w' kept].
  cbn [fst] in *. rewrite Hw, IH.
  destruct (quoteCount x mod 2 =? 0) eqn:Hq.
  - apply Nat.eqb_eq in Hq. by rewrite filter_cons_False by (intros H; by apply H).
  - apply Nat.eqb_neq in Hq. by rewrite filter_cons_True.
Qed.

Lemma removeNulls_elem examples e :
  e ∈ removeNulls examples ->
  e ∈ examples /\ articleId e <> [] /\ publication e <> [] /\ publishedDate e <> [].
Proof.
  assert (forall s : jsstring, truthy s = true -> s <> []) as Htruthy
    by (by intros [|c s]).
  unfold removeNulls. intros [Hp Hin]%list_elem_of_filter. split; [done|].
  repeat (apply andb_true_iff in Hp as [Hp ?]).
  repeat split; by apply Htruthy.
Qed.

(** X11: the stages only ever shrink the list: after completeness
    filtering no more records than the input, after markup stripping as
    many, after duplicate elimination no more, after validation no more. *)
Theorem cleanExamples_sizes (this : DataCleaner) examples :
  let complete := removeNulls examples in
  let stripped := stripHtml convert complete in
  let unique := (filterDuplicates this stripped).2 in
  let valid := (cleanExamples convert this examples).2 in
  length valid <= length unique
  /\ length unique <= length stripped
  /\ length stripped = length complete
  /\ length complete <= length examples.
Proof.
  intros complete stripped unique valid. repeat split.
  - unfold valid. rewrite cleanExamples_stages.
    apply sublist_length, validateEntitiesAndQuotes_sublist.
  - unfold unique. rewrite filterDuplicates_kept. apply sublist_length, kept_sublist.
  - unfold stripped, stripHtml. apply length_map.
  - unfold complete, removeNulls. apply length_filter.
Qed.

(** X12: every record that [cleanExamples] returns has a non-empty id,
    publication and date, a title of at least 5 and a content of at least
    50 code units with no white space at either end, and passes the
    upper-case test; and no two returned records share an id. *)
Theorem cleanExamples_output_valid (this : DataCleaner) examples :
  NoDup (articleId <$> (cleanExamples convert this examples).2)
  /\ forall e, e ∈ (cleanExamples convert this examples).2 ->
       articleId e <> [] /\ publication e <> [] /\ publishedDate e <> []
       /\ trim (title e) = title e /\ trim (content e) = content e
       /\ acceptable e.
Proof.
  rewrite cleanExamples_stages, filterDuplicates_kept. split.
  - apply (sublist_NoDup _
             (articleId <$> (filterDuplicates_loop
                               (stripHtml convert (removeNulls examples)) ∅ []).2));
      [apply kept_NoDup | apply fmap_sublist, validateEntitiesAndQuotes_sublist].
  - intros e [Hin Hkeep]%validateEntitiesAndQuotes_kept.
    apply validateExample_keep in Hkeep.
    pose proof (kept_sublist (stripHtml convert (removeNulls examples)) ∅) as Hsub.
    eapply elem_of_sublist in Hin; [| exact Hsub].
    unfold stripHtml in Hin. apply list_elem_of_fmap in Hin as (e0 & -> & Hin0).
    apply removeNulls_elem in Hin0 as (_ & Hid & Hpub & Hdate).
    cbn [articleId publication publishedDate title content].
    do 3 (split; [done|]). split; [apply trim_idemp|]. split; [apply trim_idemp | done].
Qed.


End CleanerRuns.


(** ** The two prompt formats and the distillation *)

Section PromptFacts.
Import DataCleaner DistillationService.
Context {double : Type}.
Variable JSON_parse : jsstring -> Result (JSON double).
Variable runtimeMessage : RuntimeError -> jsstring.
Variable numberOfIndex : nat -> double.
Implicit Types (example : TrainingExample double).
Implicit Types (examples : list (TrainingExample double)).

(** X14: the prompt of [DataCleaner.createPrompt] and the student prompt
    of the distillation service are the same text exactly for the
    contents longer than 500 code units; on a shorter content the former
    still ends the content with an ellipsis and the latter does not. *)
Theorem createPrompt_agrees_with_student_prompt example :
  createPrompt example = createStudentPrompt example
  <-> 500 < length (content example).
Proof.
  unfold createPrompt, createStudentPrompt.
  destruct (500 <? length (content example)) eqn:Hlen.
  - apply Nat.ltb_lt in Hlen. split; [done|]. intros _. reflexivity.
  - apply Nat.ltb_ge in Hlen. split; [| lia].
    intros H. apply app_inv_head in H. apply app_inv_head in H. discriminate H.
Qed.

(** X15: [transformToPrompts] gives one example per record, in order,
    whose completion is the record's title and whose metadata carries the
    position of the record as exampleIndex unless the record's own
    metadata defines that key; its completions are those the distillation
    produces when every teacher call fails. *)
Theorem transformToPrompts_examples this (client : BedrockRuntimeClient) examples :
  length (transformToPrompts numberOfIndex examples) = length examples
  /\ (forall i example, examples !! i = Some example ->
        exists p md, transformToPrompts numberOfIndex examples !! i = Some p
          /\ completion p = title example
          /\ pmetadata p = Some md
          /\ md !! js "exampleIndex"
             = match metadata example with
               | Some source =>
                   match ownProps source !! js "exampleIndex" with
                   | Some v => Some v
                   | None => Some (JNumber (numberOfIndex i))
                   end
               | None => Some (JNumber (numberOfIndex i))
               end)
  /\ ((forall n command, exists e, client n command = Err e) ->
      completion <$> distillExamples JSON_parse runtimeMessage this client examples
      = completion <$> transformToPrompts numberOfIndex examples).
Proof.
  unfold transformToPrompts. split; [apply length_imap|]. split.
  - intros i example Hi. eexists _, _. rewrite list_lookup_imap, Hi.
    split; [reflexivity|]. cbn [completion pmetadata createCompletion].
    split; [done|]. split; [reflexivity|].
    rewrite spread_lookup. by destruct (metadata example).
  - intros Hfail. rewrite distillExamples_imap.
    apply list_eq. intros i. rewrite !list_lookup_fmap, !list_lookup_imap.
    destruct (examples !! i) as [example|]; [| done]. cbn [fmap option_fmap option_map].
    f_equal. rewrite generate_completion. unfold teacherAttempt.
    destruct (Hfail i (invokeCommand this example)) as [e ->]. reflexivity.
Qed.

(** X16: the size of the request window does not show in the result: two
    services with the same teacher model return the same examples for the
    same records and the same client, whatever their
    [maxConcurrentRequests]. *)
Theorem distillExamples_window_independent
    (this this' : DistillationService) (client : BedrockRuntimeClient) examples :
  teacherModelId this = teacherModelId this' ->
  distillExamples JSON_parse runtimeMessage this client examples
  = distillExamples JSON_parse runtimeMessage this' client examples.
Proof.
  intros Hmodel. rewrite !distillExamples_imap.
  apply imap_ext. intros i example _.
  unfold generateTeacherOutput, teacherAttempt, invokeCommand. by rewrite Hmodel.
Qed.

(** X17: a record with a non-empty title never gets an empty completion,
    whatever the teacher answers: a blank or missing text and every
    failure fall back on the title. *)
Theorem distillExamples_completion_nonempty
    this (client : BedrockRuntimeClient) examples p :
  (forall example, example ∈ examples -> title example <> []) ->
  p ∈ distillExamples JSON_parse runtimeMessage this client examples ->
  completion p <> [].
Proof.
  intros Htitles. rewrite distillExamples_imap.
  intros (i & Hi)%list_elem_of_lookup. rewrite list_lookup_imap in Hi.
  destruct (examples !! i) as [example|] eqn:He; [| done].
  injection Hi as <-. rewrite generate_completion.
  assert (title example <> []) as Ht
    by (apply Htitles; by eapply list_elem_of_lookup_2).
  destruct (teacherAttempt _ _ _ _ _ _) as [[[|c text]|]|e]; done.
Qed.

(** X18: for a record whose own metadata defines none of the provenance
    keys, the metadata of the example records the id, publication and date
    of the record; after a successful teacher call it carries the teacher
    model and the original title and no teacherModelError, after a failed
    one it carries the error message and neither teacher model nor
    original title. *)
Theorem generateTeacherOutput_provenance
    this (client : BedrockRuntimeClient) n example :
  (forall k, match metadata example with
             | Some source => ownProps source !! k
             | None => None
             end = None) ->
  exists md,
    pmetadata (generateTeacherOutput JSON_parse runtimeMessage this client n example)
    = Some md
    /\ md !! js "articleId" = Some (JString (articleId example))
    /\ md !! js "publication" = Some (JString (publication example))
    /\ md !! js "publishedDate" = Some (JString (publishedDate example))
    /\ match teacherAttempt JSON_parse runtimeMessage this client n example with
       | Ok _ =>
           md !! js "teacherModel" = Some (JString (teacherModelId this))
           /\ md !! js "originalTitle" = Some (JString (title example))
           /\ md !! js "teacherModelError" = None
       | Err message =>
           md !! js "teacherModelError" = Some (JString message)
           /\ md !! js "teacherModel" = None
           /\ md !! js "originalTitle" = None
       end.
Proof.
  intros Hnone.
  assert (forall target k, spread (metadata example) target !! k = target !! k) as Hspread.
  { intros target k. rewrite spread_lookup. specialize (Hnone k).
    destruct (metadata example); [by rewrite Hnone | done]. }
  unfold generateTeacherOutput.
  destruct (teacherAttempt _ _ _ _ _ _) as [text|message];
    eexists; (split; [reflexivity|]); rewrite !Hspread; repeat split;
    vm_compute; reflexivity.
Qed.

End PromptFacts.

(** ** The dataset writer and the submitter: failures and names *)

Section WriterRuns.
Import StorageService.
Context {double : Type}.
Variable serializeNumber : double -> jsstring.
Variable clock : nat -> Z.
Variable s3Client : PutObjectCommand -> Result unit.

(** X19: when the store rejects the write, [saveTrainingDataset] throws
    the store's error and returns no descriptor; the object was sent once,
    and the clock was read once, on entry. *)
Theorem saveTrainingDataset_store_fails
    (prompts : list (PromptExample double)) (config : TrainingConfig)
    (p : Process) (e : jsstring) :
  (forall command, s3Client command = Err e) ->
  exists command p',
    saveTrainingDataset serializeNumber clock s3Client prompts config p
    = (p', Thrown e)
    /\ events p' = events p ++ [S3Send command]
    /\ Key command
       = datasetKey (publicationId config)
           (versionToken (clock (clockReads p)) (trainingRunId config))
    /\ clockReads p' = S (clockReads p).
Proof.
  intros Hstore.
  unfold saveTrainingDataset, bind, DateNow, emit, await, ret, throw.
  cbn [clockReads events]. rewrite Hstore. cbn [clockReads events].
  eexists _, _. split; [reflexivity|]. by repeat split.
Qed.

Lemma string_of_uint_digits (d : Decimal.uint) :
  Forall isDigit (js (NilEmpty.string_of_uint d)).
Proof.
  induction d; simpl; constructor; try done; unfold isDigit; lia.
Qed.

Lemma string_of_uint_nonempty (d : Decimal.uint) :
  Forall isDigit (js (NilZero.string_of_uint d)) /\ js (NilZero.string_of_uint d) <> [].
Proof.
  destruct d; simpl;
    (split; [constructor; [unfold isDigit; lia |]; try apply string_of_uint_digits;
             constructor | done]).
Qed.

(** The decimal text of an integer: an optional minus sign, then digits. *)
Lemma Z_toString_shape (z : Z) :
  exists sign digits,
    Z_toString z = sign ++ digits
    /\ (sign = [] \/ sign = [45%N])
    /\ digits <> [] /\ Forall isDigit digits.
Proof.
  unfold Z_toString. destruct (Z.to_int z) as [d|d]; simpl.
  - exists [], (js (NilZero.string_of_uint d)).
    destruct (string_of_uint_nonempty d). by repeat split; [left | |].
  - exists [45%N], (js (NilZero.string_of_uint d)).
    destruct (string_of_uint_nonempty d). by repeat split; [right | |].
Qed.

Lemma digits_split (ds ds' r r' : jsstring) :
  Forall isDigit ds -> Forall isDigit ds' ->
  ds ++ 45%N :: r = ds' ++ 45%N :: r' -> ds = ds' /\ r = r'.
Proof.
  intros Hds. revert ds'. induction Hds as [|c ds Hc Hds IH]; intros ds' Hds' Heq.
  - destruct Hds' as [|c' ds' Hc' _]; simpl in Heq; [by injection Heq|].
    injection Heq as Hx _. unfold isDigit in Hc'. lia.
  - destruct Hds' as [|c' ds' Hc' Hds']; simpl in Heq.
    + injection Heq as Hx _. unfold isDigit in Hc. lia.
    + injection Heq as -> Heq. destruct (IH ds' Hds' Heq) as [-> ->]. done.
Qed.

Lemma versionToken_inj (t t' : Z) (r r' : jsstring) :
  versionToken t r = versionToken t' r' -> t = t' /\ r = r'.
Proof.
  unfold versionToken.
  destruct (Z_toString_shape t) as (sg & ds & Ht & Hsg & Hne & Hds).
  destruct (Z_toString_shape t') as (sg' & ds' & Ht' & Hsg' & Hne' & Hds').
  intros Heq. assert (Z_toString t = Z_toString t' /\ r = r') as [H ->].
  { rewrite Ht, Ht' in *. change (js "-") with [45%N] in Heq.
    rewrite <- !app_assoc in Heq. simpl in Heq.
    destruct ds as [|c ds]; [done|]. destruct ds' as [|c' ds']; [done|].
    apply Forall_cons in Hds as [Hc Hds0]. apply Forall_cons in Hds' as [Hc' Hds0'].
    unfold isDigit in Hc, Hc'.
    destruct Hsg as [-> | ->], Hsg' as [-> | ->]; simpl in Heq.
    - assert (Forall isDigit (c :: ds)) as H1 by (constructor; done).
      assert (Forall isDigit (c' :: ds')) as H2 by (constructor; done).
      destruct (digits_split _ _ _ _ H1 H2 Heq) as [-> ->]. done.
    - injection Heq as Hx _. lia.
    - injection Heq as Hx _. lia.
    - injection Heq as -> Heq.
      destruct (digits_split _ _ _ _ Hds0 Hds0' Heq) as [-> ->]. done. }
  split; [by apply Z_toString_inj | done].
Qed.

(** X20: under one publication, two writes get the same storage key only
    when they read the same time and belong to the same run: the version
    token determines both the timestamp and the run id, so a dataset is
    never overwritten by a write of another run or of another
    millisecond. *)
Theorem datasetKey_determines_time_and_run
    (publicationId : option jsstring) (t t' : Z) (r r' : jsstring) :
  datasetKey publicationId (versionToken t r)
  = datasetKey publicationId (versionToken t' r')
  <-> t = t' /\ r = r'.
Proof.
  split; [| by intros [-> ->]].
  unfold datasetKey. intros H.
  do 3 apply app_inv_head in H. apply app_inv_tail in H.
  by apply versionToken_inj.
Qed.

End WriterRuns.

Section SubmitterRuns.
Import BedrockService.
Variable clock : nat -> Z.
Variable bedrockClient : CreateModelCustomizationJobCommand -> Result (option jsstring).

(** X21: [createModelCustomizationJob] reads the clock once and sends one
    command, whose training data is the location of the descriptor; it
    returns the job ARN of the response, or the word unknown when the
    response has none, so never an empty identifier; when the service
    rejects the command it throws the service's error. *)
Theorem createModelCustomizationJob_outcome STAGE ROLE
    (config : TrainingConfig) result bedrockConfig (p : Process) :
  let run := createModelCustomizationJob clock bedrockClient STAGE ROLE
               config result bedrockConfig p in
  exists command,
    events run.1 = events p ++ [BedrockSend command]
    /\ clockReads run.1 = S (clockReads p)
    /\ trainingDataConfig_s3Uri command = s3Location result
    /\ run.2 = match bedrockClient command with
               | Ok response => Returned (or_else response (js "unknown"))
               | Err e => Thrown e
               end
    /\ (forall jobId, run.2 = Returned jobId -> jobId <> []).
Proof.
  unfold createModelCustomizationJob, bind, tryCatch, DateNow, emit, await, ret, throw.
  cbn [clockReads events]. eexists. split.
  - destruct (bedrockClient _); reflexivity.
  - split; [by destruct (bedrockClient _)|]. split; [reflexivity|].
    split; [by destruct (bedrockClient _)|].
    intros jobId. destruct (bedrockClient _) as [[[|c arn]|]|e]; cbn [snd];
      intros [= <-]; done.
Qed.

End SubmitterRuns.

(** ** The data job as a whole *)

Section DataJobRuns.
Import Main.
Context {double : Type}.
Variable serializeNumber : double -> jsstring.
Variable JSON_parse : jsstring -> Result (JSON double).
Variable runtimeMessage : DistillationService.RuntimeError -> jsstring.
Variable convert : jsstring -> jsstring.
Variable env : Env.
Variable world : World (double := double).

Abbreviation tryBlock' :=
  (tryBlock serializeNumber JSON_parse runtimeMessage convert env world).
Abbreviation cleanedOf raw :=
  ((DataCleaner.cleanExamples convert DataCleaner.new raw).2).
Abbreviation promptsOf raw :=
  (DistillationService.distillExamples JSON_parse runtimeMessage
     (DistillationService.new
        {| DistillationService.cfgTeacherModelId :=
             or_else (TEACHER_MODEL_ID env)
                     (js "anthropic.claude-3-5-sonnet-20241022-v2:0");
           DistillationService.cfgRegion := or_else (AWS_REGION env) (js "eu-west-1");
           DistillationService.cfgMaxConcurrentRequests := Some 5%N |})
     (teacher world) (cleanedOf raw)).

Implicit Types (raw : list (TrainingExample double)).

Lemma cleanedOf_length raw : length (cleanedOf raw) <= length raw.
Proof.
  rewrite cleanExamples_stages, filterDuplicates_kept.
  etransitivity; [apply sublist_length, validateEntitiesAndQuotes_sublist|].
  etransitivity; [apply sublist_length, kept_sublist|].
  unfold DataCleaner.stripHtml, DataCleaner.removeNulls.
  rewrite length_map. apply length_filter.
Qed.

(** The check after cleaning decides the other two. *)
Lemma guards_pass (min : intOrNaN) raw :
  length_lt (length (cleanedOf raw)) min = false ->
  length_lt (length raw) min = false
  /\ length_lt (length (promptsOf raw)) min = false.
Proof.
  intros H. rewrite distillExamples_length. split; [| done].
  pose proof (cleanedOf_length raw) as Hle.
  destruct min as [|m]; [done|]. simpl in *.
  apply Z.ltb_ge. apply Z.ltb_ge in H. lia.
Qed.

Lemma omap_snoc {A B} (f : A -> option B) (l : list A) (x : A) :
  omap f (l ++ [x]) = omap f l ++ match f x with Some y => [y] | None => [] end.
Proof. rewrite omap_app. simpl. by destruct (f x). Qed.

Local Ltac sends := cbn [events]; rewrite !omap_snoc; cbv beta iota; rewrite ?app_nil_r.



(** X23: without [TRAINING_DATA_BUCKET], or with an empty one, the
    program exits with code 1 before any service is called. *)
Theorem program_without_bucket (parseInt : jsstring -> intOrNaN) :
  truthy_opt (TRAINING_DATA_BUCKET env) = false ->
  let run := program serializeNumber JSON_parse runtimeMessage convert parseInt
               env world in
  run.2 = Exited 1%Z /\ events run.1 = [].
Proof.
  intros Hbucket. unfold program, main. rewrite Hbucket. cbn [negb].
  unfold tryCatch, bind, throw, exit, ret, DateNow.
  by destruct (truthy_opt (TRAINING_RUN_ID env)).
Qed.

(** X24: when the query returns records of which enough remain after
    cleaning (or the minimum is not a number), the store accepts the write
    and the training service the job, the [try] block ends with exit code
    0 after exactly five events in this order: query, cleaning,
    distillation, one object sent, one job sent. The object holds one
    line per cleaned record when there is at least one, and the job is
    trained on the URI of the object. The check on the cleaned count alone
    decides: the other two follow from it. *)
Theorem tryBlock_succeeds (config : TrainingConfig) (p : Process)
    (raw : list (TrainingExample double)) :
  (forall d, 10%N ∉ serializeNumber d) ->
  queryTrainingData world config = Ok raw ->
  length_lt (length (cleanedOf raw)) (minPromptCount config) = false ->
  (forall command, s3Client world command = Ok tt) ->
  (forall job, exists r, bedrockClient world job = Ok r) ->
  exists p' command job,
    tryBlock' config p = (p', Exited 0%Z)
    /\ events p' = events p ++ [QueryTrainingData; CleanExamples; DistillExamples;
                                S3Send command; BedrockSend job]
    /\ Metadata_prompt_count command = Z_toString (Z.of_nat (length (cleanedOf raw)))
    /\ (cleanedOf raw <> [] -> lineCount (Body command) = length (cleanedOf raw))
    /\ trainingDataConfig_s3Uri job
       = js "s3://" ++ trainingDataBucket config ++ js "/" ++ Key command.
Proof.
  intros Hnum Hq Hguard Hstore Hjob.
  destruct (guards_pass _ raw Hguard) as [Hraw Hprompts].
  unfold tryBlock, tryCatch, pipeline, bind, emit, await, throw, exit, ret.
  rewrite Hq. cbn [clockReads events]. rewrite Hraw, Hguard, Hprompts.
  unfold StorageService.saveTrainingDataset, bind, DateNow, emit, await, ret, throw.
  cbn [clockReads events]. rewrite Hstore.
  unfold BedrockService.createModelCustomizationJob, tryCatch, bind, DateNow, emit,
    await, ret, throw.
  cbn [clockReads events s3Location].
  match goal with
  | |- context [bedrockClient world ?j] =>
      set (job := j); destruct (Hjob job) as [r Hr]; rewrite Hr
  end.
  eexists _, _, job. split; [reflexivity|]. cbn [events].
  split; [by rewrite <- !(app_assoc (events p))|].
  cbn [Metadata_prompt_count Body Key].
  split; [by rewrite distillExamples_length|]. split; [| reflexivity].
  intros Hne. rewrite jsonlContent_lineCount; [apply distillExamples_length | done |].
  intros Heq. apply Hne. apply (f_equal length) in Heq.
  rewrite distillExamples_length in Heq. by destruct (cleanedOf raw).
Qed.

(** X25: a minimum that [parseInt] could not read is not enforced: with
    [NaN] as the minimum the [try] block never stops on a count, and with
    working services it writes the dataset and submits the job even when
    the query returned nothing. *)
Theorem tryBlock_without_minimum (config : TrainingConfig) (p : Process)
    (raw : list (TrainingExample double)) :
  minPromptCount config = NaN ->
  queryTrainingData world config = Ok raw ->
  (forall command, s3Client world command = Ok tt) ->
  (forall job, exists r, bedrockClient world job = Ok r) ->
  exists p' command job,
    tryBlock' config p = (p', Exited 0%Z)
    /\ storedObjects p' = storedObjects p ++ [command]
    /\ submittedJobs p' = submittedJobs p ++ [job]
    /\ Metadata_prompt_count command = Z_toString (Z.of_nat (length (cleanedOf raw)))
    /\ (cleanedOf raw = [] -> Body command = []).
Proof.
  intros Hmin Hq Hstore Hjob.
  unfold tryBlock, tryCatch, pipeline, bind, emit, await, throw, exit, ret.
  rewrite Hq, Hmin. cbn [clockReads events length_lt].
  unfold StorageService.saveTrainingDataset, bind, DateNow, emit, await, ret, throw.
  cbn [clockReads events]. rewrite Hstore.
  unfold BedrockService.createModelCustomizationJob, tryCatch, bind, DateNow, emit,
    await, ret, throw.
  cbn [clockReads events s3Location].
  match goal with
  | |- context [bedrockClient world ?j] =>
      set (job := j); destruct (Hjob job) as [r Hr]; rewrite Hr
  end.
  eexists _, _, job. split; [reflexivity|].
  unfold storedObjects, submittedJobs. sends.
  split; [done|]. split; [done|].
  cbn [Metadata_prompt_count Body].
  split; [by rewrite distillExamples_length|].
  intros Hempty. unfold StorageService.jsonlContent.
  rewrite Hempty, distillExamples_imap. reflexivity.
Qed.

(** X26: when the store rejects the write, the [try] block ends with exit
    code 1 and no job is submitted; when the store accepts it and the
    training service rejects the job, the block also ends with exit code
    1, after the object was sent: the dataset stays in the store. *)
Theorem tryBlock_service_failures (config : TrainingConfig) (p : Process)
    (raw : list (TrainingExample double)) :
  queryTrainingData world config = Ok raw ->
  length_lt (length (cleanedOf raw)) (minPromptCount config) = false ->
  ((forall command, exists e, s3Client world command = Err e) ->
   exists p' command,
     tryBlock' config p = (p', Exited 1%Z)
     /\ storedObjects p' = storedObjects p ++ [command]
     /\ submittedJobs p' = submittedJobs p)
  /\ ((forall command, s3Client world command = Ok tt) ->
      (forall job, exists e, bedrockClient world job = Err e) ->
      exists p' command job,
        tryBlock' config p = (p', Exited 1%Z)
        /\ storedObjects p' = storedObjects p ++ [command]
        /\ submittedJobs p' = submittedJobs p ++ [job]).
Proof.
  intros Hq Hguard. destruct (guards_pass _ raw Hguard) as [Hraw Hprompts].
  split.
  - intros Hstore.
    unfold tryBlock, tryCatch, pipeline, bind, emit, await, throw, exit, ret.
    rewrite Hq. cbn [clockReads events]. rewrite Hraw, Hguard, Hprompts.
    unfold StorageService.saveTrainingDataset, bind, DateNow, emit, await, ret, throw.
    cbn [clockReads events].
    match goal with
    | |- context [s3Client world ?c] =>
        set (command := c); destruct (Hstore command) as [e He]; rewrite He
    end.
    eexists _, command. split; [reflexivity|].
    unfold storedObjects, submittedJobs. by sends.
  - intros Hstore Hjob.
    unfold tryBlock, tryCatch, pipeline, bind, emit, await, throw, exit, ret.
    rewrite Hq. cbn [clockReads events]. rewrite Hraw, Hguard, Hprompts.
    unfold StorageService.saveTrainingDataset, bind, DateNow, emit, await, ret, throw.
    cbn [clockReads events]. rewrite Hstore.
    unfold BedrockService.createModelCustomizationJob, tryCatch, bind, DateNow, emit,
      await, ret, throw.
    cbn [clockReads events s3Location].
    match goal with
    | |- context [bedrockClient world ?j] =>
        set (job := j); destruct (Hjob job) as [e He]; rewrite He
    end.
    eexists _, _, job. split; [reflexivity|].
    unfold storedObjects, submittedJobs. by sends.
Qed.

End DataJobRuns.

(** ** Starting the query and waiting for it *)

Section QueryRuns.
Import DataService.
Context {double : Type}.
Variable JSON_parse : jsstring -> Result (JSON double).
Variable athena : Athena.

(** [k] turns of the waiting loop on a query that is still running and a
    clock that is still within the limit. *)
Lemma waitForQueryCompletion_loop_running k :
  forall fuel startTime maxWaitTime (s : Session),
  (forall i, i < k -> (now athena (reads s + i) - startTime < maxWaitTime)%Z) ->
  (forall i, i < k ->
     exists response, getQueryExecution athena (polls s + i) = Ok response
                      /\ running response) ->
  waitForQueryCompletion_loop athena (k + fuel) startTime maxWaitTime s
  = waitForQueryCompletion_loop athena fuel startTime maxWaitTime
      {| reads := reads s + k; polls := polls s + k |}.
Proof.
  induction k as [|k IH]; intros fuel startTime maxWaitTime s Htime Hpoll.
  - rewrite !Nat.add_0_r. by destruct s.
  - cbn [Nat.add waitForQueryCompletion_loop].
    pose proof (Htime 0 ltac:(lia)) as H0. rewrite Nat.add_0_r in H0.
    apply Z.ltb_lt in H0. rewrite H0.
    destruct (Hpoll 0 ltac:(lia)) as (response & Hr & Hs1 & Hs2 & Hs3).
    rewrite Nat.add_0_r in Hr. rewrite Hr.
    rewrite !bool_decide_eq_false_2 by done. cbn [orb].
    rewrite IH.
    + cbn [reads polls]. do 2 f_equal; lia.
    + intros i Hi. cbn [reads]. replace (S (reads s) + i) with (reads s + S i) by lia.
      apply Htime. lia.
    + intros i Hi. cbn [polls]. replace (S (polls s) + i) with (polls s + S i) by lia.
      apply Hpoll. lia.
Qed.

(** X27: when the first [k] polls find the query still running, the next
    one finds it SUCCEEDED, and every reading of the clock up to then is
    within [maxWaitTime] of the first, [waitForQueryCompletion] returns
    normally after [k + 1] polls and [k + 2] readings of the clock. *)
Theorem waitForQueryCompletion_succeeds_after_polls
    k fuel maxWaitTime (s : Session) response :
  k < fuel ->
  (forall i, i <= k ->
     (now athena (S (reads s) + i) - now athena (reads s) < maxWaitTime)%Z) ->
  (forall i, i < k ->
     exists r, getQueryExecution athena (polls s + i) = Ok r /\ running r) ->
  getQueryExecution athena (polls s + k) = Ok response ->
  State response = Some (js "SUCCEEDED") ->
  waitForQueryCompletion athena fuel maxWaitTime s
  = Some ({| reads := reads s + k + 2; polls := polls s + k + 1 |}, Ok tt).
Proof.
  intros Hfuel Htime Hpoll Hlast Hstate. unfold waitForQueryCompletion.
  replace fuel with (k + S (fuel - S k)) by lia.
  rewrite waitForQueryCompletion_loop_running; cbn [reads polls].
  - cbn [waitForQueryCompletion_loop reads polls].
    pose proof (Htime k ltac:(lia)) as Hk. apply Z.ltb_lt in Hk. rewrite Hk.
    rewrite Hlast, Hstate, bool_decide_eq_true_2 by done.
    do 3 f_equal; lia.
  - intros i Hi. apply Htime. lia.
  - done.
Qed.

(** X28: when the first [k] polls find the query still running and the
    next one finds it FAILED or CANCELLED, [waitForQueryCompletion] throws
    an error that names that state and the reason given by the backend,
    or "Unknown error" when it gives none; no further poll is made. *)
Theorem waitForQueryCompletion_reports_failure
    k fuel maxWaitTime (s : Session) response state :
  k < fuel ->
  (forall i, i <= k ->
     (now athena (S (reads s) + i) - now athena (reads s) < maxWaitTime)%Z) ->
  (forall i, i < k ->
     exists r, getQueryExecution athena (polls s + i) = Ok r /\ running r) ->
  getQueryExecution athena (polls s + k) = Ok response ->
  State response = Some state ->
  state = js "FAILED" \/ state = js "CANCELLED" ->
  waitForQueryCompletion athena fuel maxWaitTime s
  = Some ({| reads := reads s + k + 2; polls := polls s + k + 1 |},
          Err (js "Query execution " ++ state ++ js ": "
               ++ or_else (StateChangeReason response) (js "Unknown error"))).
Proof.
  intros Hfuel Htime Hpoll Hlast Hstate Hfailed. unfold waitForQueryCompletion.
  replace fuel with (k + S (fuel - S k)) by lia.
  rewrite waitForQueryCompletion_loop_running; cbn [reads polls].
  - cbn [waitForQueryCompletion_loop reads polls].
    pose proof (Htime k ltac:(lia)) as Hk. apply Z.ltb_lt in Hk. rewrite Hk.
    rewrite Hlast, Hstate.
    rewrite bool_decide_eq_false_2
      by (destruct Hfailed as [-> | ->]; intros [= H]; discriminate H).
    assert (bool_decide (Some state = Some (js "FAILED"))
            || bool_decide (Some state = Some (js "CANCELLED")) = true) as ->.
    { destruct Hfailed as [-> | ->]; vm_compute; reflexivity. }
    cbn [default from_option id].
    do 3 f_equal; lia.
  - intros i Hi. apply Htime. lia.
  - done.
Qed.

(** X29: when the first [k] polls find the query still running and the
    reading of the clock that follows is [maxWaitTime] or more past the
    first one, [waitForQueryCompletion] throws "Query execution timeout"
    without polling again; with [k = 0] it throws before any poll. *)
Theorem waitForQueryCompletion_times_out k fuel maxWaitTime (s : Session) :
  k < fuel ->
  (forall i, i < k ->
     (now athena (S (reads s) + i) - now athena (reads s) < maxWaitTime)%Z) ->
  (maxWaitTime <= now athena (S (reads s) + k) - now athena (reads s))%Z ->
  (forall i, i < k ->
     exists r, getQueryExecution athena (polls s + i) = Ok r /\ running r) ->
  waitForQueryCompletion athena fuel maxWaitTime s
  = Some ({| reads := reads s + k + 2; polls := polls s + k |},
          Err (js "Query execution timeout")).
Proof.
  intros Hfuel Htime Hlate Hpoll. unfold waitForQueryCompletion.
  replace fuel with (k + S (fuel - S k)) by lia.
  rewrite waitForQueryCompletion_loop_running; cbn [reads polls]; [| done | done].
  cbn [waitForQueryCompletion_loop reads polls].
  apply Z.ltb_ge in Hlate. rewrite Hlate.
  do 3 f_equal; lia.
Qed.

(** X30: when the start command is answered without a query execution
    id, or with an empty one, [queryTrainingData] throws "Failed to start
    Athena query execution" at once: the clock is not read, the execution
    is not polled and no result page is requested, whatever the fuel. *)
Theorem queryTrainingData_not_started fuel (config : TrainingConfig) (s : Session)
    date queryExecutionId :
  lookBackDate athena (lookBackDays config) = Ok date ->
  (forall command, startQueryExecution athena command = Ok queryExecutionId) ->
  truthy_opt queryExecutionId = false ->
  queryTrainingData JSON_parse athena fuel config s
  = Some (s, Err (js "Failed to start Athena query execution")).
Proof.
  intros Hdate Hstart Hid. unfold queryTrainingData.
  by rewrite Hdate, Hstart, Hid.
Qed.

End QueryRuns.

(** ** The further properties at concrete inputs *)

(** X16 at a concrete input: windows of two and of seven. *)
Lemma distillExamples_window_independent_witness :
  DistillationService.distillExamples Samples.headlineParser Samples.runtimeMessage
    Samples.service Samples.secondCallFails
    [Samples.recordOf "a1"; Samples.recordOf "a2"; Samples.recordOf "a3"]
  = DistillationService.distillExamples Samples.headlineParser Samples.runtimeMessage
      Samples.wideService Samples.secondCallFails
      [Samples.recordOf "a1"; Samples.recordOf "a2"; Samples.recordOf "a3"].
Proof.
  apply (distillExamples_window_independent Samples.headlineParser
           Samples.runtimeMessage Samples.service Samples.wideService).
  reflexivity.
Defined.

(** X17 at a concrete input: a blank teacher answer. *)
Lemma distillExamples_completion_nonempty_witness :
  completion (DistillationService.generateTeacherOutput Samples.JSON_parse
                Samples.runtimeMessage Samples.service Samples.blankTeacher 0
                (Samples.recordOf "a1")) <> [].
Proof.
  apply (distillExamples_completion_nonempty Samples.JSON_parse Samples.runtimeMessage
           Samples.service Samples.blankTeacher [Samples.recordOf "a1"]).
  - intros example ->%list_elem_of_singleton. vm_compute. discriminate.
  - vm_compute. left.
Defined.

(** X18 at a concrete input: a record without metadata and a failed call. *)
Lemma generateTeacherOutput_provenance_witness :
  exists md,
    pmetadata (DistillationService.generateTeacherOutput Samples.JSON_parse
                 Samples.runtimeMessage Samples.service Samples.failingTeacher 0
                 (Samples.longRecord "a1")) = Some md
    /\ md !! js "articleId" = Some (JString (js "a1"))
    /\ md !! js "teacherModelError" = Some (JString (js "ThrottlingException"))
    /\ md !! js "teacherModel" = None.
Proof.
  destruct (generateTeacherOutput_provenance Samples.JSON_parse Samples.runtimeMessage
              Samples.service Samples.failingTeacher 0 (Samples.longRecord "a1"))
    as (md & Hmd & Hid & _ & _ & Herr & Hmodel & _).
  - intros k. reflexivity.
  - exists md. repeat split; assumption.
Defined.

(** X19 at a concrete input: the store is down. *)
Lemma saveTrainingDataset_store_fails_witness :
  exists command p',
    StorageService.saveTrainingDataset Samples.serializeNumber (Samples.clockAt 1)
      (fun _ => Err (js "ServiceUnavailable")) Samples.twoExamples
      (Samples.config "run-1") start
    = (p', Thrown (js "ServiceUnavailable"))
    /\ events p' = events start ++ [S3Send command]
    /\ Key command
       = StorageService.datasetKey (publicationId (Samples.config "run-1"))
           (StorageService.versionToken (Samples.clockAt 1 (clockReads start))
              (trainingRunId (Samples.config "run-1")))
    /\ clockReads p' = S (clockReads start).
Proof.
  apply (saveTrainingDataset_store_fails Samples.serializeNumber (Samples.clockAt 1)
           (fun _ => Err (js "ServiceUnavailable")) Samples.twoExamples
           (Samples.config "run-1") start (js "ServiceUnavailable")).
  reflexivity.
Defined.

(** X23 at a concrete environment: no bucket, no run id. *)
Lemma program_without_bucket_witness :
  (Main.program Samples.serializeNumber Samples.JSON_parse Samples.runtimeMessage
     Samples.convert Samples.parseInt Samples.envWithoutBucket
     (Samples.world [Samples.longRecord "a1"])).2 = Exited 1%Z
  /\ events (Main.program Samples.serializeNumber Samples.JSON_parse
               Samples.runtimeMessage Samples.convert Samples.parseInt
               Samples.envWithoutBucket (Samples.world [Samples.longRecord "a1"])).1
     = [].
Proof.
  apply (program_without_bucket Samples.serializeNumber Samples.JSON_parse
           Samples.runtimeMessage Samples.convert Samples.envWithoutBucket
           (Samples.world [Samples.longRecord "a1"]) Samples.parseInt).
  reflexivity.
Defined.

(** X24 at a concrete run: two good records against a minimum of 2. *)
Lemma tryBlock_succeeds_witness :
  exists p' command job,
    Main.tryBlock Samples.serializeNumber Samples.JSON_parse Samples.runtimeMessage
      Samples.convert Samples.env
      (Samples.world [Samples.longRecord "a1"; Samples.longRecord "a2"])
      (Samples.config "run-1") start
    = (p', Exited 0%Z)
    /\ events p' = [QueryTrainingData; CleanExamples; DistillExamples;
                    S3Send command; BedrockSend job]
    /\ Metadata_prompt_count command = js "2"
    /\ lineCount (Body command) = 2.
Proof.
  destruct (tryBlock_succeeds Samples.serializeNumber Samples.JSON_parse
              Samples.runtimeMessage Samples.convert Samples.env
              (Samples.world [Samples.longRecord "a1"; Samples.longRecord "a2"])
              (Samples.config "run-1") start
              [Samples.longRecord "a1"; Samples.longRecord "a2"])
    as (p' & command & job & Hrun & Hevents & Hcount & Hlines & _).
  - intros [].
  - reflexivity.
  - vm_compute. reflexivity.
  - reflexivity.
  - intros job. eexists. reflexivity.
  - exists p', command, job. split; [exact Hrun|]. split; [exact Hevents|].
    split; [exact Hcount|]. apply Hlines. vm_compute. discriminate.
Defined.

(** X25 at a concrete run: no minimum and an empty query result. *)
Lemma tryBlock_without_minimum_witness :
  exists p' command job,
    Main.tryBlock Samples.serializeNumber Samples.JSON_parse Samples.runtimeMessage
      Samples.convert Samples.env (Samples.world []) Samples.configWithoutMinimum start
    = (p', Exited 0%Z)
    /\ storedObjects p' = [command]
    /\ submittedJobs p' = [job]
    /\ Metadata_prompt_count command = js "0"
    /\ Body command = [].
Proof.
  destruct (tryBlock_without_minimum Samples.serializeNumber Samples.JSON_parse
              Samples.runtimeMessage Samples.convert Samples.env (Samples.world [])
              Samples.configWithoutMinimum start [])
    as (p' & command & job & Hrun & Hstored & Hjobs & Hcount & Hbody).
  - reflexivity.
  - reflexivity.
  - reflexivity.
  - intros job. eexists. reflexivity.
  - exists p', command, job. split; [exact Hrun|]. split; [exact Hstored|].
    split; [exact Hjobs|]. split; [exact Hcount|]. apply Hbody. reflexivity.
Defined.

(** X26 at a concrete run: the store is down. *)
Lemma tryBlock_service_failures_witness :
  exists p' command,
    Main.tryBlock Samples.serializeNumber Samples.JSON_parse Samples.runtimeMessage
      Samples.convert Samples.env
      (Samples.worldStoreDown [Samples.longRecord "a1"; Samples.longRecord "a2"])
      (Samples.config "run-1") start
    = (p', Exited 1%Z)
    /\ storedObjects p' = [command]
    /\ submittedJobs p' = [].
Proof.
  destruct (tryBlock_service_failures Samples.serializeNumber Samples.JSON_parse
              Samples.runtimeMessage Samples.convert Samples.env
              (Samples.worldStoreDown [Samples.longRecord "a1"; Samples.longRecord "a2"])
              (Samples.config "run-1") start
              [Samples.longRecord "a1"; Samples.longRecord "a2"])
    as [Hstore _].
  - reflexivity.
  - vm_compute. reflexivity.
  - apply Hstore. intros command. eexists. reflexivity.
Defined.

(** X27 at a concrete backend: QUEUED, RUNNING, SUCCEEDED. *)
Lemma waitForQueryCompletion_succeeds_after_polls_witness :
  DataService.waitForQueryCompletion
    (Samples.athenaOf Samples.succeedsAtThirdPoll (Some (js "q-1"))) 5 300000
    Samples.freshSession
  = Some ({| DataService.reads := 4; DataService.polls := 3 |}, Ok tt).
Proof.
  apply (waitForQueryCompletion_succeeds_after_polls
           (Samples.athenaOf Samples.succeedsAtThirdPoll (Some (js "q-1")))
           2 5 300000 Samples.freshSession
           {| DataService.State := Some (js "SUCCEEDED");
              DataService.StateChangeReason := None |}).
  - lia.
  - intros i Hi. simpl. lia.
  - intros i Hi. destruct i as [|[|i]]; [| | lia];
      (eexists; split; [reflexivity|]; repeat split; vm_compute; discriminate).
  - reflexivity.
  - reflexivity.
Defined.

(** X28 at a concrete backend: RUNNING, then CANCELLED with a reason. *)
Lemma waitForQueryCompletion_reports_failure_witness :
  DataService.waitForQueryCompletion
    (Samples.athenaOf Samples.cancelledAtSecondPoll (Some (js "q-1"))) 5 300000
    Samples.freshSession
  = Some ({| DataService.reads := 3; DataService.polls := 2 |},
          Err (js "Query execution CANCELLED: Query cancelled by user")).
Proof.
  apply (waitForQueryCompletion_reports_failure
           (Samples.athenaOf Samples.cancelledAtSecondPoll (Some (js "q-1")))
           1 5 300000 Samples.freshSession
           {| DataService.State := Some (js "CANCELLED");
              DataService.StateChangeReason := Some (js "Query cancelled by user") |}
           (js "CANCELLED")).
  - lia.
  - intros i Hi. simpl. lia.
  - intros i Hi. destruct i as [|i]; [| lia].
    eexists; split; [reflexivity|]; repeat split; vm_compute; discriminate.
  - reflexivity.
  - reflexivity.
  - by right.
Defined.

(** X29 at a concrete backend: a query that keeps running, a limit of
    three seconds and a clock that advances by two per reading. *)
Lemma waitForQueryCompletion_times_out_witness :
  DataService.waitForQueryCompletion
    (Samples.athenaOf Samples.alwaysRunning (Some (js "q-1"))) 5 3000
    Samples.freshSession
  = Some ({| DataService.reads := 3; DataService.polls := 1 |},
          Err (js "Query execution timeout")).
Proof.
  apply (waitForQueryCompletion_times_out
           (Samples.athenaOf Samples.alwaysRunning (Some (js "q-1")))
           1 5 3000 Samples.freshSession).
  - lia.
  - intros i Hi. simpl. lia.
  - simpl. lia.
  - intros i Hi. eexists; split; [reflexivity|]; repeat split; vm_compute; discriminate.
Defined.

(** X30 at a concrete backend: the start command returns no id. *)
Lemma queryTrainingData_not_started_witness :
  DataService.queryTrainingData Samples.JSON_parse
    (Samples.athenaOf Samples.alwaysRunning None) 0 (Samples.config "run-1")
    Samples.freshSession
  = Some (Samples.freshSession, Err (js "Failed to start Athena query execution")).
Proof.
  apply (queryTrainingData_not_started Samples.JSON_parse
           (Samples.athenaOf Samples.alwaysRunning None) 0 (Samples.config "run-1")
           Samples.freshSession (js "2024-04-01") None).
  - reflexivity.
  - reflexivity.
  - reflexivity.
Defined.
